(** * PhystechCampus dataset adapter ([opr/datasets/custom.py])

    A shallow embedding of the [PhystechCampus] dataset class: the
    point-cloud loader [_load_pc], the constructor [__init__] and the sample
    assembler [__getitem__], with the properties of the design document
    proved over it. *)

From Stdlib Require Import ZArith Lia Bool SpecFloat QArith.
From Stdlib.Strings Require Import Byte.
From stdpp Require Import gmap strings list fin_maps pretty.

Local Open Scope Z_scope.

(** ** Exceptions and results *)

Inductive exn : Set :=
  | ValueError
  | IndexError
  | KeyError
  | AttributeError
  | TypeError
  | FileNotFoundError
  | CvError.

Inductive result (A : Type) : Type :=
  | Ok (a : A)
  | Raise (e : exn).
Arguments Ok {A} a.
Arguments Raise {A} e.

Definition rbind {A B} (r : result A) (k : A -> result B) : result B :=
  match r with
  | Ok a => k a
  | Raise e => Raise e
  end.

Definition rmap {A B} (f : A -> B) (r : result A) : result B :=
  rbind r (fun a => Ok (f a)).

(** ** IEEE-754 binary32 values

    An array element of dtype [float32] is kept as its 32-bit pattern; the
    pattern is read through [SpecFloat]'s [spec_float] when it is compared. *)
Module F32.

Definition prec : Z := 24.
Definition emax : Z := 128.

(** Four bytes of a file, least significant first. *)
Definition of_bytes (b0 b1 b2 b3 : byte) : Z :=
  Z.lor (Z.of_N (Byte.to_N b0))
    (Z.lor (Z.shiftl (Z.of_N (Byte.to_N b1)) 8)
       (Z.lor (Z.shiftl (Z.of_N (Byte.to_N b2)) 16)
          (Z.shiftl (Z.of_N (Byte.to_N b3)) 24))).

Definition sign (w : Z) : bool := Z.testbit w 31.
Definition biased_exp (w : Z) : Z := Z.land (Z.shiftr w 23) 255.
Definition fraction (w : Z) : Z := Z.land w 8388607.

Definition decode (w : Z) : spec_float :=
  let s := sign w in
  let E := biased_exp w in
  let M := fraction w in
  if E =? 255 then
    if M =? 0 then S754_infinity s else S754_nan
  else if E =? 0 then
    match M with
    | Zpos m => S754_finite s m (-149)
    | _ => S754_zero s
    end
  else
    match M + 8388608 with
    | Zpos m => S754_finite s m (E - 150)
    | _ => S754_nan
    end.

(** A Python integer operand of a comparison with a [float32] array is
    converted to [float32]. *)
Definition of_int (z : Z) : spec_float := binary_normalize prec emax z 0 false.

(** [a <= b] on array elements. *)
Definition leb (a b : spec_float) : bool := SFleb a b.

(** The number a pattern stands for, when it stands for one. *)
Definition SF2Q (f : spec_float) : option Q :=
  match f with
  | S754_zero _ => Some 0%Q
  | S754_finite s m e =>
      let n := if s then Zneg m else Zpos m in
      Some (match e with
            | Zneg k => Qmake n (2 ^ k)%positive
            | _ => inject_Z (n * 2 ^ e)
            end)
  | _ => None
  end.

Definition value (w : Z) : option Q := SF2Q (decode w).

End F32.

(** ** The array operations [_load_pc] uses *)
Module np.

(** [np.fromfile(f, dtype=np.float32)] on the bytes of the file: as many
    whole items as the file holds. *)
Fixpoint fromfile_float32 (bs : list byte) : list Z :=
  match bs with
  | b0 :: b1 :: b2 :: b3 :: r => F32.of_bytes b0 b1 b2 b3 :: fromfile_float32 r
  | _ => []
  end.

(** [a.reshape((-1, ncols))]: row [i] holds the items
    [ncols*i .. ncols*i + ncols - 1]; the size has to be a multiple of
    [ncols]. *)
Definition reshape {A} (ncols : nat) (a : list A) : result (list (list A)) :=
  if (length a mod ncols =? 0)%nat
  then Ok (map (fun i => take ncols (drop (ncols * i) a))
             (seq 0 (length a / ncols)))
  else Raise ValueError.

(** [a[:, :-1]] *)
Definition drop_last_column {A} (a : list (list A)) : list (list A) :=
  map (fun row => take (length row - 1) row) a.

(** [c <= a] and [a <= c] for a scalar [c] *)
Definition scalar_le (c : Z) (a : list (list Z)) : list (list bool) :=
  map (map (fun x => F32.leb (F32.of_int c) (F32.decode x))) a.
Definition le_scalar (a : list (list Z)) (c : Z) : list (list bool) :=
  map (map (fun x => F32.leb (F32.decode x) (F32.of_int c))) a.

Definition logical_and (a b : list (list bool)) : list (list bool) :=
  zip_with (zip_with andb) a b.

(** [np.all(a, axis=1)] *)
Definition all_axis1 (a : list (list bool)) : list bool :=
  map (forallb id) a.

(** [a[mask]] for a boolean [mask] over the rows *)
Definition mask_rows {A} (a : list (list A)) (mask : list bool) : list (list A) :=
  map snd (List.filter fst (zip mask a)).

End np.

(** ** The Row Index: a table with labelled columns

    A frame holds its index length and its columns; a row taken out of it
    is a series, a cell per column label. *)

Inductive cell : Set :=
  | CInt (z : Z)
  | CFloat (bits : Z)
  | CStr (s : string)
  | CBool (b : bool).

Record DataFrame : Type := mkDataFrame {
  df_len : nat;
  df_columns : gmap string (list cell)
}.

Module pd.

(** [df.iloc[idx]]: a position from the front, or from the end when
    negative; [IndexError] outside [-len, len). *)
Definition iloc (df : DataFrame) (idx : Z) : result (gmap string cell) :=
  let n := Z.of_nat (df_len df) in
  if (idx <? - n) || (n <=? idx) then Raise IndexError
  else
    let pos := Z.to_nat (if idx <? 0 then idx + n else idx) in
    Ok (omap (fun col : list cell => col !! pos) (df_columns df)).

(** [row[key]] *)
Definition getitem (row : gmap string cell) (key : string) : result cell :=
  match row !! key with
  | Some c => Ok c
  | None => Raise KeyError
  end.

(** [row[[k1, k2, ...]]] *)
Fixpoint getitems (row : gmap string cell) (keys : list string) : result (list cell) :=
  match keys with
  | [] => Ok []
  | k :: ks =>
      rbind (getitem row k) (fun c =>
      rbind (getitems row ks) (fun cs => Ok (c :: cs)))
  end.

(** [df[key] = v] for a scalar [v]: the column is created or replaced,
    filled with [v]. *)
Definition setitem (df : DataFrame) (key : string) (v : cell) : DataFrame :=
  {| df_len := df_len df;
     df_columns := <[key := replicate (df_len df) v]> (df_columns df) |}.

End pd.

(** ** Transform objects, as the constructor configures them *)

Record DefaultImageTransform : Set :=
  { it_train : bool; it_resize : Z * Z }.
Record DefaultCloudTransform : Set := { ct_train : bool }.
Record DefaultCloudSetTransform : Set := { cst_train : bool }.
Record DefaultSemanticTransform : Set := { st_train : bool }.

(** A subdirectory argument: a string or a path object, or [None]. *)
Inductive pathlike (P : Type) : Type :=
  | PStr (s : string)
  | PPath (p : P).
Arguments PStr {P} s.
Arguments PPath {P} p.

(** An attribute of the object: not set yet, or holding a value. *)
Inductive attr (A : Type) : Type :=
  | Unset
  | Val (a : A).
Arguments Unset {A}.
Arguments Val {A} a.

(** ** What the class relies on from outside

    Paths ([pathlib]), the files under the dataset root, the image codec
    and the transforms ([cv2], [opr.datasets.augmentations]), the
    conversions of table cells, and the part of the base class that is
    configuration. *)
Class Externals : Type := {
  Path : Type;
  Path_of : string -> Path;                 (* Path(s) *)
  joinpath : Path -> Path -> Path;          (* p / q *)
  path_str : Path -> string;                (* str(p) *)
  read_file : Path -> option (list byte);   (* bytes of a readable file *)
  Image : Type;
  Tensor : Type;
  imread : string -> Z -> option Image;     (* cv2.imread: None when unreadable *)
  cvtColor_BGR2RGB : Image -> Image;
  resize : Image -> Z * Z -> Image;
  call_image_transform : DefaultImageTransform -> Image -> Tensor;
  call_semantic_transform : DefaultSemanticTransform -> Image -> Tensor;
  tensor_float : Tensor -> Tensor;          (* t.float() *)
  cell_str : cell -> string;                (* str(c), as an f-string formats it *)
  astype_float32 : cell -> result Z;        (* conversion to dtype float32 *)
  load_index : Path -> string -> result DataFrame;  (* the table of a subset *)
  base_declares : string -> bool            (* attributes the base class presets to None *)
}.

(** ** Methods: computations over an object that may raise *)
Section Methods.
Context {S : Type}.

Definition M (A : Type) : Type := S -> result A * S.

Definition ret {A} (a : A) : M A := fun self => (Ok a, self).
Definition raise {A} (e : exn) : M A := fun self => (Raise e, self).
Definition bind {A B} (m : M A) (k : A -> M B) : M B :=
  fun self =>
    match m self with
    | (Ok a, self') => k a self'
    | (Raise e, self') => (Raise e, self')
    end.
Definition lift {A} (r : result A) : M A := fun self => (r, self).

(** [self.name], read and assigned *)
Definition getattr {A} (field : S -> attr A) : M A :=
  fun self =>
    match field self with
    | Val a => (Ok a, self)
    | Unset => (Raise AttributeError, self)
    end.
Definition setattr (update : S -> S) : M unit :=
  fun self => (Ok tt, update self).

End Methods.
Arguments M S A : clear implicits.

Declare Scope method_scope.
Delimit Scope method_scope with method.
Notation "x <- m ;; k" := (bind m (fun x => k))
  (at level 100, m at next level, right associativity) : method_scope.
Notation "m ;; k" := (bind m (fun _ => k))
  (at level 100, right associativity) : method_scope.

Section PhystechCampus.
Context `{Externals}.

(** ** The point-cloud loader *)

(** [PhystechCampus._load_pc]: the [float32] items of the file in rows of
    four, the last column cut off, the rows kept whose three values all
    pass both comparisons. *)
Definition _load_pc (filepath : Path) : result (list (list Z)) :=
  match read_file filepath with
  | None => Raise FileNotFoundError
  | Some bytes =>
      rbind (np.reshape 4 (np.fromfile_float32 bytes)) (fun a =>
      let pc := np.drop_last_column a in
      let in_range_idx :=
        np.all_axis1 (np.logical_and (np.scalar_le (-100) pc) (np.le_scalar pc 100)) in
      let pc := np.mask_rows pc in_range_idx in
      Ok pc)
  end.

(** ** The dataset object *)

Record Dataset : Type := mkDataset {
  self_dataset_root : attr Path;
  self_subset : attr string;
  self_modalities : attr (list string);
  self_dataset_df : attr DataFrame;
  self_clouds_subdir : attr (option Path);
  self_images_subdir : attr (option Path);
  self_semantic_front_subdir : attr (option Path);
  self_semantic_back_subdir : attr (option Path);
  self_mink_quantization_size : attr (option Z);
  self_image_transform : attr DefaultImageTransform;
  self_cloud_transform : attr DefaultCloudTransform;
  self_cloud_set_transform : attr DefaultCloudSetTransform;
  self_semantic_transform : attr DefaultSemanticTransform
}.

(** A new object, before any constructor ran. *)
Definition new_object : Dataset :=
  mkDataset Unset Unset Unset Unset Unset Unset Unset Unset Unset Unset Unset Unset Unset.

Definition set_dataset_root v (d : Dataset) : Dataset :=
  mkDataset (Val v) (self_subset d) (self_modalities d) (self_dataset_df d) (self_clouds_subdir d)
    (self_images_subdir d) (self_semantic_front_subdir d) (self_semantic_back_subdir d)
    (self_mink_quantization_size d) (self_image_transform d) (self_cloud_transform d)
    (self_cloud_set_transform d) (self_semantic_transform d).
Definition set_subset v (d : Dataset) : Dataset :=
  mkDataset (self_dataset_root d) (Val v) (self_modalities d) (self_dataset_df d) (self_clouds_subdir d)
    (self_images_subdir d) (self_semantic_front_subdir d) (self_semantic_back_subdir d)
    (self_mink_quantization_size d) (self_image_transform d) (self_cloud_transform d)
    (self_cloud_set_transform d) (self_semantic_transform d).
Definition set_modalities v (d : Dataset) : Dataset :=
  mkDataset (self_dataset_root d) (self_subset d) (Val v) (self_dataset_df d) (self_clouds_subdir d)
    (self_images_subdir d) (self_semantic_front_subdir d) (self_semantic_back_subdir d)
    (self_mink_quantization_size d) (self_image_transform d) (self_cloud_transform d)
    (self_cloud_set_transform d) (self_semantic_transform d).
Definition set_dataset_df v (d : Dataset) : Dataset :=
  mkDataset (self_dataset_root d) (self_subset d) (self_modalities d) (Val v) (self_clouds_subdir d)
    (self_images_subdir d) (self_semantic_front_subdir d) (self_semantic_back_subdir d)
    (self_mink_quantization_size d) (self_image_transform d) (self_cloud_transform d)
    (self_cloud_set_transform d) (self_semantic_transform d).
Definition set_clouds_subdir v (d : Dataset) : Dataset :=
  mkDataset (self_dataset_root d) (self_subset d) (self_modalities d) (self_dataset_df d) (Val v)
    (self_images_subdir d) (self_semantic_front_subdir d) (self_semantic_back_subdir d)
    (self_mink_quantization_size d) (self_image_transform d) (self_cloud_transform d)
    (self_cloud_set_transform d) (self_semantic_transform d).
Definition set_images_subdir v (d : Dataset) : Dataset :=
  mkDataset (self_dataset_root d) (self_subset d) (self_modalities d) (self_dataset_df d) (self_clouds_subdir d)
    (Val v) (self_semantic_front_subdir d) (self_semantic_back_subdir d)
    (self_mink_quantization_size d) (self_image_transform d) (self_cloud_transform d)
    (self_cloud_set_transform d) (self_semantic_transform d).
Definition set_semantic_front_subdir v (d : Dataset) : Dataset :=
  mkDataset (self_dataset_root d) (self_subset d) (self_modalities d) (self_dataset_df d) (self_clouds_subdir d)
    (self_images_subdir d) (Val v) (self_semantic_back_subdir d)
    (self_mink_quantization_size d) (self_image_transform d) (self_cloud_transform d)
    (self_cloud_set_transform d) (self_semantic_transform d).
Definition set_semantic_back_subdir v (d : Dataset) : Dataset :=
  mkDataset (self_dataset_root d) (self_subset d) (self_modalities d) (self_dataset_df d) (self_clouds_subdir d)
    (self_images_subdir d) (self_semantic_front_subdir d) (Val v)
    (self_mink_quantization_size d) (self_image_transform d) (self_cloud_transform d)
    (self_cloud_set_transform d) (self_semantic_transform d).
Definition set_mink_quantization_size v (d : Dataset) : Dataset :=
  mkDataset (self_dataset_root d) (self_subset d) (self_modalities d) (self_dataset_df d) (self_clouds_subdir d)
    (self_images_subdir d) (self_semantic_front_subdir d) (self_semantic_back_subdir d)
    (Val v) (self_image_transform d) (self_cloud_transform d)
    (self_cloud_set_transform d) (self_semantic_transform d).
Definition set_image_transform v (d : Dataset) : Dataset :=
  mkDataset (self_dataset_root d) (self_subset d) (self_modalities d) (self_dataset_df d) (self_clouds_subdir d)
    (self_images_subdir d) (self_semantic_front_subdir d) (self_semantic_back_subdir d)
    (self_mink_quantization_size d) (Val v) (self_cloud_transform d)
    (self_cloud_set_transform d) (self_semantic_transform d).
Definition set_cloud_transform v (d : Dataset) : Dataset :=
  mkDataset (self_dataset_root d) (self_subset d) (self_modalities d) (self_dataset_df d) (self_clouds_subdir d)
    (self_images_subdir d) (self_semantic_front_subdir d) (self_semantic_back_subdir d)
    (self_mink_quantization_size d) (self_image_transform d) (Val v)
    (self_cloud_set_transform d) (self_semantic_transform d).
Definition set_cloud_set_transform v (d : Dataset) : Dataset :=
  mkDataset (self_dataset_root d) (self_subset d) (self_modalities d) (self_dataset_df d) (self_clouds_subdir d)
    (self_images_subdir d) (self_semantic_front_subdir d) (self_semantic_back_subdir d)
    (self_mink_quantization_size d) (self_image_transform d) (self_cloud_transform d)
    (Val v) (self_semantic_transform d).
Definition set_semantic_transform v (d : Dataset) : Dataset :=
  mkDataset (self_dataset_root d) (self_subset d) (self_modalities d) (self_dataset_df d) (self_clouds_subdir d)
    (self_images_subdir d) (self_semantic_front_subdir d) (self_semantic_back_subdir d)
    (self_mink_quantization_size d) (self_image_transform d) (self_cloud_transform d)
    (self_cloud_set_transform d) (Val v).

Local Open Scope method_scope.

Definition valid_subsets : list string := ["train"; "val"; "test"].
Definition valid_modalities : list string := ["image"; "cloud"; "semantic"].

(** [Path(x)] for a string or a path; [None] is not accepted *)
Definition Path_new (x : option (pathlike Path)) : result Path :=
  match x with
  | Some (PStr s) => Ok (Path_of s)
  | Some (PPath p) => Ok p
  | None => Raise TypeError
  end.

(** Truth value of a subdirectory argument under [if x:]: [None] and the
    empty string are false. *)
Definition pathlike_bool (x : option (pathlike Path)) : bool :=
  match x with
  | None => false
  | Some (PStr EmptyString) => false
  | Some _ => true
  end.

(** [x is not None] *)
Definition is_not_None {A} (x : option A) : bool :=
  match x with
  | None => false
  | Some _ => true
  end.

(** Truth value of an optional path object under [if x:]: only [None] is
    false. *)
Definition path_bool (x : option Path) : bool :=
  match x with
  | None => false
  | Some _ => true
  end.

Definition when (b : bool) (m : M Dataset unit) : M Dataset unit :=
  if b then m else ret tt.

Definition declare (name : string) (init : option Path -> Dataset -> Dataset)
  : M Dataset unit :=
  when (base_declares name) (setattr (init None)).

(** Modelled from the spec: [BaseDataset.__init__] ([opr/datasets/base.py]),
    which is not part of this file.  It keeps the dataset root, the subset
    selector (one of the fixed set) and the tuple of modality names (each
    checked against the allowed set, unknown names rejected), and loads the
    Row Index of the subset.  Which subdirectory attributes the base class
    presets to [None] is left to [base_declares]. *)
Definition BaseDataset__init__ (dataset_root : pathlike Path) (subset : string)
    (modalities : list string) : M Dataset unit :=
  root <- lift (Path_new (Some dataset_root)) ;;
  setattr (set_dataset_root root) ;;
  when (negb (bool_decide (subset ∈ valid_subsets))) (raise ValueError) ;;
  setattr (set_subset subset) ;;
  df <- lift (load_index root subset) ;;
  setattr (set_dataset_df df) ;;
  when (negb (forallb (fun m => bool_decide (m ∈ valid_modalities)) modalities))
    (raise ValueError) ;;
  setattr (set_modalities modalities) ;;
  declare "images_subdir" set_images_subdir ;;
  declare "clouds_subdir" set_clouds_subdir ;;
  declare "semantic_front_subdir" set_semantic_front_subdir ;;
  declare "semantic_back_subdir" set_semantic_back_subdir.

(** Lines 53-79 of [__init__]: what the constructor does after the first
    assignment of [clouds_subdir]. *)
Definition configure (subset : string)
    (images_subdir semantic_front_subdir semantic_back_subdir : option (pathlike Path))
    (mink_quantization_size : option Z) : M Dataset unit :=
  mods <- getattr self_modalities ;;
  when (bool_decide ("image" ∈ mods))
    (if pathlike_bool images_subdir
     then p <- lift (Path_new images_subdir) ;;
          setattr (set_images_subdir (Some p))
     else raise ValueError) ;;

  mods <- getattr self_modalities ;;
  when (bool_decide ("semantic" ∈ mods))
    (when (pathlike_bool semantic_front_subdir)
       (p <- lift (Path_new semantic_front_subdir) ;;
        setattr (set_semantic_front_subdir (Some p))) ;;
     when (pathlike_bool semantic_back_subdir)
       (p <- lift (Path_new semantic_back_subdir) ;;
        setattr (set_semantic_back_subdir (Some p)))) ;;

  setattr (set_clouds_subdir (Some (Path_of "lidar"))) ;;

  setattr (set_mink_quantization_size mink_quantization_size) ;;

  s <- getattr self_subset ;;
  when (bool_decide (s = "test"))
    (df <- getattr self_dataset_df ;;
     setattr (set_dataset_df (pd.setitem df "in_query" (CBool true)))) ;;

  let train := bool_decide (subset = "train") in
  setattr (set_image_transform {| it_train := train; it_resize := (320, 192) |}) ;;
  setattr (set_cloud_transform {| ct_train := train |}) ;;
  setattr (set_cloud_set_transform {| cst_train := train |}) ;;

  setattr (set_semantic_transform {| st_train := train |}).

(** [PhystechCampus.__init__] *)
Definition __init__ (dataset_root : pathlike Path) (subset : string)
    (modalities : list string)
    (images_subdir semantic_front_subdir semantic_back_subdir : option (pathlike Path))
    (mink_quantization_size : option Z) : M Dataset unit :=
  BaseDataset__init__ dataset_root subset modalities ;;

  mods <- getattr self_modalities ;;
  when (bool_decide ("cloud" ∈ mods))
    (setattr (set_clouds_subdir (Some (Path_of "pcd")))) ;;

  configure subset images_subdir semantic_front_subdir semantic_back_subdir
    mink_quantization_size.

(** ** Samples *)

Inductive value : Type :=
  | VInt (z : Z)                 (* a Python integer *)
  | VVector (v : list Z)         (* a 1-D float32 tensor *)
  | VCloud (pc : list (list Z))  (* a 2-D float32 tensor, one row per point *)
  | VTensor (t : Tensor).        (* the tensor a transform made *)

(** [a.to_numpy(dtype=np.float32)] on the cells selected from a row *)
Fixpoint to_numpy_float32 (cs : list cell) : result (list Z) :=
  match cs with
  | [] => Ok []
  | c :: cs' =>
      rbind (astype_float32 c) (fun x =>
      rbind (to_numpy_float32 cs') (fun xs => Ok (x :: xs)))
  end.

(** The operand of [track_dir / self.subdir]: a path, not [None]. *)
Definition as_path (x : option Path) : result Path :=
  match x with
  | Some p => Ok p
  | None => Raise TypeError
  end.

(** [cv2] functions raise on the [None] that [imread] returns for a file it
    cannot read. *)
Definition cv_input (im : option Image) : result Image :=
  match im with
  | Some i => Ok i
  | None => Raise CvError
  end.

(** Lines 86-91: the image of the sample. *)
Definition getitem_image (row : gmap string cell) (track_dir : Path)
    (data : gmap string value) : M Dataset (gmap string value) :=
  mods <- getattr self_modalities ;;
  if bool_decide ("image" ∈ mods) then
    sub <- getattr self_images_subdir ;;
    if is_not_None sub then
      sub <- getattr self_images_subdir ;;
      p <- lift (as_path sub) ;;
      sub' <- getattr self_images_subdir ;;
      let column := (from_option path_str "None" sub' +:+ "_ts")%string in
      ts <- lift (pd.getitem row column) ;;
      let im_filepath :=
        joinpath (joinpath track_dir p) (Path_of (cell_str ts +:+ ".png")) in
      let im := imread (path_str im_filepath) 1 in
      im <- lift (rmap cvtColor_BGR2RGB (cv_input im)) ;;
      tr <- getattr self_image_transform ;;
      let im := call_image_transform tr im in
      ret (<["image" := VTensor im]> data)
    else ret data
  else ret data.

(** Lines 92-95: the point cloud of the sample. *)
Definition getitem_cloud (row : gmap string cell) (track_dir : Path)
    (data : gmap string value) : M Dataset (gmap string value) :=
  mods <- getattr self_modalities ;;
  if bool_decide ("cloud" ∈ mods) then
    sub <- getattr self_clouds_subdir ;;
    if is_not_None sub then
      sub <- getattr self_clouds_subdir ;;
      p <- lift (as_path sub) ;;
      ts <- lift (pd.getitem row "lidar_ts") ;;
      let pc_filepath :=
        joinpath (joinpath track_dir p) (Path_of (cell_str ts +:+ ".bin")) in
      pc <- lift (_load_pc pc_filepath) ;;
      ret (<["cloud" := VCloud pc]> data)
    else ret data
  else ret data.

(** Lines 98-104 and 106-112: one semantic mask, read from the
    subdirectory attribute [field] and the timestamp column [column], kept
    under [key]. *)
Definition getitem_mask (field : Dataset -> attr (option Path))
    (column key : string) (row : gmap string cell) (track_dir : Path)
    (data : gmap string value) : M Dataset (gmap string value) :=
  sub <- getattr field ;;
  if path_bool sub then
    sub <- getattr field ;;
    p <- lift (as_path sub) ;;
    ts <- lift (pd.getitem row column) ;;
    let im_filepath :=
      joinpath (joinpath track_dir p) (Path_of (cell_str ts +:+ ".png")) in
    let mask := imread (path_str im_filepath) 0 in
    mask <- lift (rmap (fun m => resize m (128, 128)) (cv_input mask)) ;;
    tr <- getattr self_semantic_transform ;;
    let mask := call_semantic_transform tr mask in
    ret (<[key := VTensor (tensor_float mask)]> data)
  else ret data.

(** Lines 97-112: the semantic masks of the sample. *)
Definition getitem_semantic (row : gmap string cell) (track_dir : Path)
    (data : gmap string value) : M Dataset (gmap string value) :=
  mods <- getattr self_modalities ;;
  if bool_decide ("semantic" ∈ mods) then
    front <- getattr self_semantic_front_subdir ;;
    configured <-
      (if is_not_None front then ret true
       else back <- getattr self_semantic_back_subdir ;; ret (is_not_None back)) ;;
    if configured : bool then
      data <- getitem_mask self_semantic_front_subdir "front_cam_ts" "semantic_front"
                row track_dir data ;;
      getitem_mask self_semantic_back_subdir "back_cam_ts" "semantic_back"
        row track_dir data
    else ret data
  else ret data.

(** [PhystechCampus.__getitem__] *)
Definition __getitem__ (idx : Z) : M Dataset (gmap string value) :=
  let data : gmap string value := {[ "idx" := VInt idx ]} in
  df <- getattr self_dataset_df ;;
  row <- lift (pd.iloc df idx) ;;
  cells <- lift (pd.getitems row ["northing"; "easting"]) ;;
  utm <- lift (to_numpy_float32 cells) ;;
  let data := <["utm" := VVector utm]> data in
  root <- getattr self_dataset_root ;;
  track <- lift (pd.getitem row "track") ;;
  let track_dir := joinpath root (Path_of (cell_str track)) in
  data <- getitem_image row track_dir data ;;
  data <- getitem_cloud row track_dir data ;;
  data <- getitem_semantic row track_dir data ;;
  ret data.

(** Modelled from the spec: [__len__] belongs to the base class, which is
    not part of this file; the length of the dataset is the row count of
    the Row Index. *)
Definition __len__ : M Dataset Z :=
  df <- getattr self_dataset_df ;;
  ret (Z.of_nat (df_len df)).

(** ** The object a construction leaves

    What the attributes hold once the constructors have run, written out:
    the base class first, then [PhystechCampus.__init__]. *)

Definition declared (name : string) : attr (option Path) :=
  if base_declares name then Val None else Unset.

Definition configured (enabled : bool) (arg : option (pathlike Path)) (name : string)
  : attr (option Path) :=
  if enabled && pathlike_bool arg then
    match Path_new arg with
    | Ok p => Val (Some p)
    | Raise _ => declared name
    end
  else declared name.

Definition base_constructed (root : Path) (subset : string) (mods : list string)
    (table : DataFrame) : Dataset :=
  {| self_dataset_root := Val root;
     self_subset := Val subset;
     self_modalities := Val mods;
     self_dataset_df := Val table;
     self_clouds_subdir := declared "clouds_subdir";
     self_images_subdir := declared "images_subdir";
     self_semantic_front_subdir := declared "semantic_front_subdir";
     self_semantic_back_subdir := declared "semantic_back_subdir";
     self_mink_quantization_size := Unset;
     self_image_transform := Unset;
     self_cloud_transform := Unset;
     self_cloud_set_transform := Unset;
     self_semantic_transform := Unset |}.

Definition constructed (root : Path) (subset : string) (mods : list string)
    (img sf sb : option (pathlike Path)) (mink : option Z) (table : DataFrame) : Dataset :=
  let train := bool_decide (subset = "train") in
  {| self_dataset_root := Val root;
     self_subset := Val subset;
     self_modalities := Val mods;
     self_dataset_df :=
       Val (if bool_decide (subset = "test")
            then pd.setitem table "in_query" (CBool true) else table);
     self_clouds_subdir := Val (Some (Path_of "lidar"));
     self_images_subdir := configured (bool_decide ("image" ∈ mods)) img "images_subdir";
     self_semantic_front_subdir :=
       configured (bool_decide ("semantic" ∈ mods)) sf "semantic_front_subdir";
     self_semantic_back_subdir :=
       configured (bool_decide ("semantic" ∈ mods)) sb "semantic_back_subdir";
     self_mink_quantization_size := Val mink;
     self_image_transform := Val {| it_train := train; it_resize := (320, 192) |};
     self_cloud_transform := Val {| ct_train := train |};
     self_cloud_set_transform := Val {| cst_train := train |};
     self_semantic_transform := Val {| st_train := train |} |}.

(** Two runs of a constructor that end alike: the same outcome, and the
    same object when the outcome is a return. *)
Definition same_construction (r1 r2 : result unit * Dataset) : Prop :=
  fst r1 = fst r2 /\ (fst r2 = Ok tt -> snd r1 = snd r2).

(** A function applied to what a method returned. *)
Definition map_sample {A B} (f : A -> B) (r : result A * Dataset) : result B * Dataset :=
  (rmap f (fst r), snd r).

(** A method that leaves the object as it found it, whatever it returns. *)
Definition state_kept {A} (m : M Dataset A) : Prop :=
  forall self, snd (m self) = self.

End PhystechCampus.

(** ** The loader as the design document words it

    Rows of four values; the fourth dropped; a row kept when each of its
    three coordinates lies in the closed interval from -100 to 100. *)

Fixpoint records (a : list Z) : list (Z * Z * Z * Z) :=
  match a with
  | x :: y :: z :: i :: r => (x, y, z, i) :: records r
  | _ => []
  end.

Definition row_of (r : Z * Z * Z * Z) : list Z :=
  let '(x, y, z, i) := r in [x; y; z; i].

Definition point_of (r : Z * Z * Z * Z) : list Z :=
  let '(x, y, z, _) := r in [x; y; z].

(** The two comparisons of the source on one array element. *)
Definition in_range (w : Z) : bool :=
  F32.leb (F32.of_int (-100)) (F32.decode w) && F32.leb (F32.decode w) (F32.of_int 100).

Definition record_in_range (r : Z * Z * Z * Z) : bool :=
  let '(x, y, z, _) := r in in_range x && in_range y && in_range z.

Definition filtered_points (a : list Z) : list (list Z) :=
  map point_of (List.filter record_in_range (records a)).

(** [w] stands for a number, and that number is in the closed interval. *)
Definition within (w : Z) : Prop :=
  exists q : Q, F32.value w = Some q /\ (inject_Z (-100) <= q)%Q /\ (q <= inject_Z 100)%Q.

(** ** A small world to run the class in

    The layout of the design document's example: root [/data], track [3],
    LiDAR timestamp [1000], and a cloud file of two records,
    (1, 2, 3, 0) and (200, 0, 0, 0). *)
Module Example.

Definition byte_of (n : Z) : byte :=
  default "000"%byte (Byte.of_N (Z.to_N (Z.land n 255))).

(** The four bytes of a [float32] pattern, least significant first. *)
Definition le_bytes (w : Z) : list byte :=
  [byte_of w; byte_of (Z.shiftr w 8); byte_of (Z.shiftr w 16); byte_of (Z.shiftr w 24)].

Definition one : Z := 0x3F800000.
Definition two : Z := 0x40000000.
Definition three : Z := 0x40400000.
Definition two_hundred : Z := 0x43480000.
Definition hundred : Z := 0x42C80000.
Definition minus_hundred : Z := 0xC2C80000.
Definition nan : Z := 0x7FC00000.

Definition cloud_1000 : list byte :=
  flat_map le_bytes [one; two; three; 0; two_hundred; 0; 0; 0].

(** Three records: a point on the boundary, twice, and a NaN row. *)
Definition cloud_1001 : list byte :=
  flat_map le_bytes
    [hundred; minus_hundred; 0; 0;  nan; 0; 0; 0;  hundred; minus_hundred; 0; one].

(** Seven values: one record and three values more. *)
Definition cloud_1002 : list byte :=
  flat_map le_bytes [one; two; three; 0; one; two; three].

Definition files : gmap string (list byte) :=
  {[ "/data/3/lidar/1000.bin" := cloud_1000;
     "/data/3/lidar/1001.bin" := cloud_1001;
     "/data/3/lidar/1002.bin" := cloud_1002;
     "/data/3/lidar/1003.bin" := [];
     "/data/3/labels/front_cam/2000.png" := ["P"; "N"; "G"; "f"]%byte;
     "/data/3/labels/back_cam/3000.png" := ["P"; "N"; "G"; "b"]%byte ]}.

Definition table : DataFrame :=
  {| df_len := 2;
     df_columns :=
       {[ "track" := [CInt 3; CInt 3];
          "northing" := [CFloat 0x4059200000000000; CFloat 0x4150000000800000];
          "easting" := [CFloat 0x4069080000000000; CInt 21];
          "lidar_ts" := [CInt 1000; CInt 1001];
          "front_cam_ts" := [CInt 2000; CInt 2001];
          "back_cam_ts" := [CInt 3000; CInt 3001] ]} |}.

(** The pattern of a [spec_float] in binary32. *)
Definition encode (f : spec_float) : Z :=
  let sbit (s : bool) := if s then 0x80000000 else 0 in
  match f with
  | S754_zero s => sbit s
  | S754_infinity s => Z.lor (sbit s) 0x7F800000
  | S754_nan => 0x7FC00000
  | S754_finite s m e =>
      if Z.pos m <? 8388608 then Z.lor (sbit s) (Z.pos m)
      else Z.lor (sbit s) (Z.lor (Z.shiftl (e + 150) 23) (Z.pos m - 8388608))
  end.

(** A binary64 pattern read as a [spec_float], and its rounding to
    binary32 (to nearest, ties to even). *)
Definition decode64 (w : Z) : spec_float :=
  let s := Z.testbit w 63 in
  let E := Z.land (Z.shiftr w 52) 2047 in
  let M := Z.land w 4503599627370495 in
  if E =? 2047 then
    if M =? 0 then S754_infinity s else S754_nan
  else if E =? 0 then
    match M with
    | Zpos m => S754_finite s m (-1074)
    | _ => S754_zero s
    end
  else
    match M + 4503599627370496 with
    | Zpos m => S754_finite s m (E - 1075)
    | _ => S754_nan
    end.

Definition round32 (f : spec_float) : spec_float :=
  match f with
  | S754_finite s m e =>
      binary_normalize F32.prec F32.emax (if s then Zneg m else Zpos m) e s
  | _ => f
  end.

(** No float cell is formatted in this world: the columns that name files
    hold integers. *)
#[export] Instance world : Externals := {|
  Path := string;
  Path_of s := s;
  joinpath p q := (p +:+ "/" +:+ q)%string;
  path_str p := p;
  read_file p := files !! p;
  Image := list byte;
  Tensor := list byte;
  imread p _ := files !! p;
  cvtColor_BGR2RGB im := im;
  resize im _ := im;
  call_image_transform _ im := im;
  call_semantic_transform _ im := im;
  tensor_float t := t;
  cell_str c :=
    match c with
    | CInt z => pretty z
    | CStr s => s
    | CBool b => if b then "True" else "False"
    | CFloat _ => "nan"
    end;
  astype_float32 c :=
    match c with
    | CInt z => Ok (encode (F32.of_int z))
    | CFloat bits => Ok (encode (round32 (decode64 bits)))
    | CBool b => Ok (if b then one else 0)
    | CStr _ => Raise ValueError
    end;
  load_index _ _ := Ok table;
  base_declares _ := true
|}.

Definition images : option (pathlike string) := Some (PStr "front_cam").
Definition front : option (pathlike string) := Some (PStr "labels/front_cam").
Definition mink : option Z := Some 0x3FE0000000000000.

(** The objects that constructions for [val] with clouds, for [test]
    with no modality and for [val] with the front masks leave. *)
Definition dataset : Dataset :=
  constructed "/data" "val" ["cloud"] images front None mink table.
Definition test_dataset : Dataset :=
  constructed "/data" "test" [] images front None mink table.
Definition semantic_dataset : Dataset :=
  constructed "/data" "val" ["semantic"] images front None mink table.

(** Row 0: northing 100.5 and easting 200.25, exact in binary32.
    Row 1: northing 4194304.0078125, which binary32 rounds to 4194304.0,
    and easting the integer 21. *)
Definition utm_0 : list Z := [0x42C90000; 0x43484000].
Definition utm_1 : list Z := [0x4A800000; 0x41A80000].

(** The samples of rows 0 and 1 of [dataset]. *)
Definition sample_0 : gmap string value :=
  <["cloud" := VCloud [[one; two; three]]]>
    (<["utm" := VVector utm_0]> {[ "idx" := VInt 0 ]}).
Definition sample_1 (idx : Z) : gmap string value :=
  <["cloud" := VCloud [[hundred; minus_hundred; 0]; [hundred; minus_hundred; 0]]]>
    (<["utm" := VVector utm_1]> {[ "idx" := VInt idx ]}).

(** Row 0 of [semantic_dataset]. *)
Definition semantic_sample_0 : gmap string value :=
  <["semantic_front" := VTensor ["P"; "N"; "G"; "f"]%byte]>
    (<["utm" := VVector utm_0]> {[ "idx" := VInt 0 ]}).

End Example.

(** ** A second world, with images and masks

    The same table; the cloud of row 0 in three files (as it is, with
    three bytes more, with other fourth values), the image and the masks of
    row 0; nothing for row 1. *)
Module Gallery.

Definition cloud_1004 : list byte :=
  Example.cloud_1000 ++ ["001"; "002"; "003"]%byte.

Definition cloud_1005 : list byte :=
  flat_map Example.le_bytes
    [Example.one; Example.two; Example.three; Example.two_hundred;
     Example.two_hundred; 0; 0; Example.nan].

Definition files : gmap string (list byte) :=
  {[ "/data/3/lidar/1000.bin" := Example.cloud_1000;
     "/data/3/lidar/1004.bin" := cloud_1004;
     "/data/3/lidar/1005.bin" := cloud_1005;
     "/data/3/front_cam/2000.png" := ["P"; "N"; "G"; "i"]%byte;
     "/data/3/labels/front_cam/2000.png" := ["P"; "N"; "G"; "f"]%byte;
     "/data/3/labels/back_cam/3000.png" := ["P"; "N"; "G"; "b"]%byte ]}.

#[export] Instance world : Externals := {|
  Path := string;
  Path_of s := s;
  joinpath p q := (p +:+ "/" +:+ q)%string;
  path_str p := p;
  read_file p := files !! p;
  Image := list byte;
  Tensor := list byte;
  imread p _ := files !! p;
  cvtColor_BGR2RGB im := im;
  resize im _ := im;
  call_image_transform _ im := im;
  call_semantic_transform _ im := im;
  tensor_float t := t;
  cell_str := @cell_str Example.world;
  astype_float32 := @astype_float32 Example.world;
  load_index _ _ := Ok Example.table;
  base_declares _ := true
|}.

Definition images : option (pathlike string) := Some (PStr "front_cam").
Definition front : option (pathlike string) := Some (PStr "labels/front_cam").
Definition back : option (pathlike string) := Some (PStr "labels/back_cam").

(** Row 0 of the table. *)
Definition row_0 : gmap string cell :=
  {[ "track" := CInt 3;
     "northing" := CFloat 0x4059200000000000;
     "easting" := CFloat 0x4069080000000000;
     "lidar_ts" := CInt 1000;
     "front_cam_ts" := CInt 2000;
     "back_cam_ts" := CInt 3000 ]}.

(** Row 1 of the table. *)
Definition row_1 : gmap string cell :=
  {[ "track" := CInt 3;
     "northing" := CFloat 0x4150000000800000;
     "easting" := CInt 21;
     "lidar_ts" := CInt 1001;
     "front_cam_ts" := CInt 2001;
     "back_cam_ts" := CInt 3001 ]}.

(** A table without coordinates. *)
Definition bare_table : DataFrame :=
  {| df_len := 1; df_columns := {[ "track" := [CInt 3] ]} |}.

(** Objects that constructions leave: no modality, clouds only, all three
    modalities for training, and no modality over the bare table. *)
Definition plain : Dataset :=
  constructed "/data" "val" [] None None None None Example.table.
Definition clouds : Dataset :=
  constructed "/data" "val" ["cloud"] None None None None Example.table.
Definition full : Dataset :=
  constructed "/data" "train" ["image"; "cloud"; "semantic"] images front back
    Example.mink Example.table.
Definition bare : Dataset :=
  constructed "/data" "val" [] None None None None bare_table.

Definition plain_sample_0 : gmap string value :=
  <["utm" := VVector Example.utm_0]> {[ "idx" := VInt 0 ]}.
Definition cloud_sample_0 : gmap string value :=
  <["cloud" := VCloud [[Example.one; Example.two; Example.three]]]> plain_sample_0.
Definition full_sample_0 : gmap string value :=
  <["semantic_back" := VTensor ["P"; "N"; "G"; "b"]%byte]>
    (<["semantic_front" := VTensor ["P"; "N"; "G"; "f"]%byte]>
       (<["cloud" := VCloud [[Example.one; Example.two; Example.three]]]>
          (<["image" := VTensor ["P"; "N"; "G"; "i"]%byte]> plain_sample_0))).

End Gallery.

(** * Properties *)

(** ** Comparisons on [float32] patterns *)

Lemma biased_exp_range w : 0 <= F32.biased_exp w < 256.
Proof.
  unfold F32.biased_exp. change 255 with (Z.ones 8).
  rewrite Z.land_ones by lia. apply Z.mod_pos_bound. lia.
Qed.

Lemma fraction_range w : 0 <= F32.fraction w < 8388608.
Proof.
  unfold F32.fraction. change 8388607 with (Z.ones 23).
  rewrite Z.land_ones by lia. apply Z.mod_pos_bound. lia.
Qed.

(** A decoded finite value is subnormal or normal, in canonical form. *)
Lemma decode_finite w s m e :
  F32.decode w = S754_finite s m e ->
  (e = -149 /\ Z.pos m < 8388608) \/
  (-149 <= e <= 104 /\ 8388608 <= Z.pos m < 16777216).
Proof.
  unfold F32.decode.
  pose proof (biased_exp_range w) as HE. pose proof (fraction_range w) as HM.
  destruct (Z.eqb_spec (F32.biased_exp w) 255) as [E255|E255].
  - destruct (F32.fraction w =? 0); discriminate.
  - destruct (Z.eqb_spec (F32.biased_exp w) 0) as [E0|E0].
    + destruct (F32.fraction w) as [|p|p] eqn:EM; try discriminate.
      intros [= <- <- <-]. left. lia.
    + destruct (F32.fraction w + 8388608) as [|p|p] eqn:EM; try discriminate.
      intros [= <- <- <-]. right. lia.
Qed.

Lemma pow2_lower k : 18 <= k -> 262144 <= 2 ^ k.
Proof. intros Hk. change 262144 with (2 ^ 18). apply Z.pow_le_mono_r; lia. Qed.

Lemma pow2_upper k : 0 <= k <= 16 -> 0 < 2 ^ k <= 65536.
Proof.
  intros Hk. split; [apply Z.pow_pos_nonneg; lia|].
  change 65536 with (2 ^ 16). apply Z.pow_le_mono_r; lia.
Qed.

(** On a canonical finite value the two comparisons of the source decide
    whether the number lies between -100 and 100. *)
Lemma in_range_finite s m e :
  (e = -149 /\ Z.pos m < 8388608) \/
  (-149 <= e <= 104 /\ 8388608 <= Z.pos m < 16777216) ->
  F32.leb (F32.of_int (-100)) (S754_finite s m e)
    && F32.leb (S754_finite s m e) (F32.of_int 100) = true <->
  exists q, F32.SF2Q (S754_finite s m e) = Some q /\
    (inject_Z (-100) <= q)%Q /\ (q <= inject_Z 100)%Q.
Proof.
  intros Hb.
  change (F32.of_int (-100)) with (S754_finite true 13107200 (-17)).
  change (F32.of_int 100) with (S754_finite false 13107200 (-17)).
  assert (Hq : forall P : Q -> Prop,
    (exists q, F32.SF2Q (S754_finite s m e) = Some q /\ P q) <->
    P (match e with
       | Zneg k => Qmake (if s then Zneg m else Zpos m) (2 ^ k)%positive
       | _ => inject_Z ((if s then Zneg m else Zpos m) * 2 ^ e)
       end)).
  { intros P. simpl. split; [intros (q & [= <-] & HP); exact HP | eauto]. }
  rewrite (Hq (fun q => (inject_Z (-100) <= q)%Q /\ (q <= inject_Z 100)%Q)).
  clear Hq. unfold F32.leb, SFleb, SFcompare, Qle.
  assert (Hsw : forall c, Pos.switch_Eq Eq c = c) by (intros []; reflexivity).
  rewrite !Pos.compare_cont_spec, !Hsw.
  rewrite (Z.compare_antisym e (-17)), (Pos.compare_antisym m 13107200).
  rewrite (Pos2Z.inj_compare m 13107200).
  destruct e as [|pe|k]; cbn [Qnum Qden inject_Z].
  - (* exponent 0: at least 2^23 in magnitude *)
    change (0 ?= -17) with Gt. cbn [CompOpp].
    destruct s; cbn; split; try discriminate; lia.
  - change (Z.pos pe ?= -17) with Gt. cbn [CompOpp].
    assert (1 <= 2 ^ Z.pos pe) by (apply (Z.pow_le_mono_r 2 0); lia).
    destruct s; cbn [andb]; split; try discriminate; nia.
  - rewrite Pos2Z.inj_pow.
    destruct (Z.compare_spec (Z.neg k) (-17)) as [He|He|He]; cbn [CompOpp].
    + injection He as ->. change (2 ^ Z.pos 17) with 131072.
      destruct (Z.compare_spec (Z.pos m) (Z.pos 13107200)) as [Hm|Hm|Hm];
        destruct s; cbn; split; try discriminate; try lia.
    + pose proof (pow2_lower (Z.pos k) ltac:(lia)).
      destruct s; cbn; split; try discriminate; try lia.
    + pose proof (pow2_upper (Z.pos k) ltac:(lia)).
      destruct s; cbn; split; try discriminate; try lia.
Qed.

(** The test of the source is the closed-interval test: zeros pass,
    infinities and NaN fail, finite values pass by their magnitude. *)
Lemma in_range_within w : in_range w = true <-> within w.
Proof.
  unfold in_range, within, F32.value.
  destruct (F32.decode w) as [s|s| |s m e] eqn:Hd.
  - split; [|reflexivity]. intros _. exists 0%Q. cbn. split; [reflexivity|].
    split; discriminate.
  - split.
    + destruct s; cbn; discriminate.
    + intros (q & Hq & _). discriminate.
  - split; [cbn; discriminate|]. intros (q & Hq & _). discriminate.
  - apply in_range_finite. eapply decode_finite, Hd.
Qed.

(** ** The array operations *)

Lemma chunks_records n : forall a : list Z,
  length a = (4 * n)%nat ->
  map (fun i => take 4 (drop (4 * i) a)) (seq 0 n) = map row_of (records a).
Proof.
  induction n as [|n IH]; intros a Ha.
  - destruct a; [reflexivity | discriminate].
  - destruct a as [|x [|y [|z [|i r]]]]; cbn [length] in Ha; try lia.
    cbn [seq map records row_of]. f_equal.
    rewrite <- seq_shift, map_map, <- (IH r) by lia.
    apply map_ext. intros k. replace (4 * S k)%nat with (S (S (S (S (4 * k))))) by lia.
    reflexivity.
Qed.

Lemma reshape_records (a : list Z) :
  (length a mod 4 = 0)%nat -> np.reshape 4 a = Ok (map row_of (records a)).
Proof.
  intros Hm. unfold np.reshape. rewrite Hm. cbn [Nat.eqb]. f_equal.
  apply chunks_records. pose proof (Nat.div_mod_eq (length a) 4). lia.
Qed.

Lemma reshape_error {A} (a : list A) :
  (length a mod 4 <> 0)%nat -> np.reshape 4 a = Raise ValueError.
Proof.
  intros Hm. unfold np.reshape.
  destruct (Nat.eqb_spec (length a mod 4) 0); [contradiction | reflexivity].
Qed.

Lemma drop_last_column_records rs :
  np.drop_last_column (map row_of rs) = map point_of rs.
Proof.
  unfold np.drop_last_column. rewrite map_map. apply map_ext.
  intros [[[x y] z] i]. reflexivity.
Qed.

Lemma range_mask (pc : list (list Z)) :
  np.all_axis1 (np.logical_and (np.scalar_le (-100) pc) (np.le_scalar pc 100))
  = map (forallb in_range) pc.
Proof.
  unfold np.all_axis1, np.logical_and, np.scalar_le, np.le_scalar.
  induction pc as [|row pc IH]; [reflexivity|].
  cbn [map zip_with]. rewrite IH. f_equal.
  clear IH. induction row as [|x row IH]; [reflexivity|].
  cbn [map zip_with forallb]. rewrite IH. reflexivity.
Qed.

Lemma mask_rows_filter {A} (f : list A -> bool) (a : list (list A)) :
  np.mask_rows a (map f a) = List.filter f a.
Proof.
  unfold np.mask_rows. induction a as [|r a IH]; [reflexivity|].
  cbn [map zip zip_with List.filter fst]. destruct (f r); cbn [map snd]; rewrite IH; reflexivity.
Qed.

Lemma filter_points rs :
  List.filter (forallb in_range) (map point_of rs)
  = map point_of (List.filter record_in_range rs).
Proof.
  induction rs as [|[[[x y] z] i] rs IH]; [reflexivity|].
  cbn [map List.filter point_of record_in_range forallb].
  rewrite andb_true_r, andb_assoc, IH.
  destruct (in_range x && in_range y && in_range z); reflexivity.
Qed.

(** Record [k] of a flat sequence sits at the positions [4k .. 4k+3]. *)
Lemma records_lookup k : forall (a : list Z) x y z i,
  records a !! k = Some (x, y, z, i) <->
  a !! (4 * k)%nat = Some x /\ a !! (4 * k + 1)%nat = Some y /\
  a !! (4 * k + 2)%nat = Some z /\ a !! (4 * k + 3)%nat = Some i.
Proof.
  induction k as [|k IH]; intros a x y z i.
  - destruct a as [|x' [|y' [|z' [|i' r]]]]; cbn; try (split; [discriminate | intros (? & ? & ? & ?); discriminate]).
    split; [intros [= -> -> -> ->]; auto | intros ([= ->] & [= ->] & [= ->] & [= ->]); reflexivity].
  - replace (4 * S k)%nat with (S (S (S (S (4 * k))))) by lia.
    destruct a as [|x' [|y' [|z' [|i' r]]]]; cbn; try (split; [discriminate | intros (? & ? & ? & ?); discriminate]).
    apply IH.
Qed.

Lemma filtered_sublist {A B} (f : A -> bool) (g : A -> B) (l : list A) :
  map g (List.filter f l) `sublist_of` map g l.
Proof.
  induction l as [|x l IH]; cbn [List.filter map]; [constructor|].
  destruct (f x); cbn [map]; constructor; exact IH.
Qed.

Section Loader.
Context `{Externals}.

(** On a file holding a whole number of records the loader returns the
    records that pass the test, cut to three values, in file order. *)
Lemma load_pc_filtered (path : Path) (bytes : list byte) :
  read_file path = Some bytes ->
  (length (np.fromfile_float32 bytes) mod 4 = 0)%nat ->
  _load_pc path = Ok (filtered_points (np.fromfile_float32 bytes)).
Proof.
  intros Hf Hm. unfold _load_pc. rewrite Hf, (reshape_records _ Hm).
  cbn [rbind]. rewrite drop_last_column_records, range_mask, mask_rows_filter.
  rewrite filter_points. reflexivity.
Qed.

(** The loader returns only on a readable file with a whole number of
    records. *)
Lemma load_pc_ok_inv (path : Path) (cloud : list (list Z)) :
  _load_pc path = Ok cloud ->
  exists bytes, read_file path = Some bytes /\
    (length (np.fromfile_float32 bytes) mod 4 = 0)%nat /\
    cloud = filtered_points (np.fromfile_float32 bytes).
Proof.
  intros Hl. unfold _load_pc in Hl.
  destruct (read_file path) as [bytes|] eqn:Hf; [|discriminate].
  exists bytes. split; [reflexivity|].
  destruct (Nat.eq_dec (length (np.fromfile_float32 bytes) mod 4)%nat 0%nat) as [Hm|Hm].
  - split; [exact Hm|].
    pose proof (load_pc_filtered path bytes Hf Hm) as Hl'. unfold _load_pc in Hl'.
    rewrite Hf in Hl'. congruence.
  - rewrite (reshape_error _ Hm) in Hl. discriminate.
Qed.

Lemma in_filtered_points (a : list Z) (p : list Z) :
  In p (filtered_points a) <->
  exists k x y z, p = [x; y; z] /\
    a !! (4 * k)%nat = Some x /\ a !! (4 * k + 1)%nat = Some y /\
    a !! (4 * k + 2)%nat = Some z /\ is_Some (a !! (4 * k + 3)%nat) /\
    within x /\ within y /\ within z.
Proof.
  unfold filtered_points. rewrite in_map_iff. split.
  - intros ([[[x y] z] i] & <- & Hin). apply filter_In in Hin as [Hin Hr].
    apply list_elem_of_In, list_elem_of_lookup in Hin as [k Hk].
    apply records_lookup in Hk as (Hx & Hy & Hz & Hi).
    cbn in Hr. apply andb_true_iff in Hr as [Hr Hrz].
    apply andb_true_iff in Hr as [Hrx Hry].
    exists k, x, y, z. rewrite <- !in_range_within. rewrite Hi. eauto 10.
  - intros (k & x & y & z & -> & Hx & Hy & Hz & [i Hi] & Wx & Wy & Wz).
    exists (x, y, z, i). split; [reflexivity|]. apply filter_In. split.
    + apply list_elem_of_In, list_elem_of_lookup. exists k.
      apply records_lookup. auto.
    + cbn. apply in_range_within in Wx, Wy, Wz. rewrite Wx, Wy, Wz. reflexivity.
Qed.

(** C1. Every point of a loaded cloud has its three coordinates in the
    closed interval from -100 to 100; every row of the file whose three
    coordinates all lie in the interval is in the cloud, and a row with a
    coordinate outside it on any axis is absent as a whole; the points of
    the cloud are rows of the file, none altered. *)
Theorem load_pc_range_filter (path : Path) (cloud : list (list Z)) :
  _load_pc path = Ok cloud ->
  exists bytes, read_file path = Some bytes /\
    let a := np.fromfile_float32 bytes in
    (forall p, In p cloud ->
       exists x y z, p = [x; y; z] /\ within x /\ within y /\ within z) /\
    (forall k x y z,
       a !! (4 * k)%nat = Some x -> a !! (4 * k + 1)%nat = Some y ->
       a !! (4 * k + 2)%nat = Some z ->
       (In [x; y; z] cloud <-> within x /\ within y /\ within z)) /\
    (forall p, In p cloud ->
       exists k x y z, p = [x; y; z] /\ a !! (4 * k)%nat = Some x /\
         a !! (4 * k + 1)%nat = Some y /\ a !! (4 * k + 2)%nat = Some z).
Proof.
  intros Hl. apply load_pc_ok_inv in Hl as (bytes & Hf & Hm & ->).
  exists bytes. split; [exact Hf|]. cbn zeta. split; [|split].
  - intros p Hp. apply in_filtered_points in Hp
      as (k & x & y & z & -> & _ & _ & _ & _ & Wx & Wy & Wz). eauto 10.
  - intros k x y z Hx Hy Hz. split.
    + intros Hp. apply in_filtered_points in Hp
        as (k' & x' & y' & z' & [= -> -> ->] & _ & _ & _ & _ & Wx & Wy & Wz).
      auto.
    + intros (Wx & Wy & Wz). apply in_filtered_points.
      exists k, x, y, z. repeat (split; [assumption || reflexivity|]).
      split; [|auto].
      apply lookup_lt_is_Some. apply lookup_lt_Some in Hz.
      pose proof (Nat.div_mod_eq (length (np.fromfile_float32 bytes)) 4). lia.
  - intros p Hp. apply in_filtered_points in Hp
      as (k & x & y & z & -> & Hx & Hy & Hz & _). eauto 10.
Qed.

(** C8. On a file that holds no [float32] item the loader returns an array
    of zero rows; it does not raise. *)
Theorem load_pc_empty (path : Path) (bytes : list byte) :
  read_file path = Some bytes ->
  np.fromfile_float32 bytes = [] ->
  _load_pc path = Ok [].
Proof.
  intros Hf He.
  rewrite (load_pc_filtered path bytes Hf); rewrite He; reflexivity.
Qed.

(** C9. When the number of [float32] items of the file is not a multiple of
    four the loader raises; it returns no cloud. *)
Theorem load_pc_ragged (path : Path) (bytes : list byte) :
  read_file path = Some bytes ->
  (length (np.fromfile_float32 bytes) mod 4 <> 0)%nat ->
  _load_pc path = Raise ValueError /\ forall cloud, _load_pc path <> Ok cloud.
Proof.
  intros Hf Hm.
  assert (Hr : _load_pc path = Raise ValueError).
  { unfold _load_pc. rewrite Hf, (reshape_error _ Hm). reflexivity. }
  split; [exact Hr|]. intros cloud. rewrite Hr. discriminate.
Qed.

(** C10. The loader keeps order and multiplicity: its output is the
    sequence of the file's four-value records that pass the range test,
    each cut to its first three values, in file order; it is a subsequence
    of the cut records, with one row per passing record. *)
Theorem load_pc_subsequence (path : Path) (bytes : list byte) :
  read_file path = Some bytes ->
  (length (np.fromfile_float32 bytes) mod 4 = 0)%nat ->
  let rs := records (np.fromfile_float32 bytes) in
  let cloud := map point_of (List.filter record_in_range rs) in
  _load_pc path = Ok cloud /\
  (cloud `sublist_of` map point_of rs) /\
  length cloud = length (List.filter record_in_range rs).
Proof.
  intros Hf Hm rs cloud. split; [|split].
  - apply (load_pc_filtered path bytes Hf Hm).
  - apply filtered_sublist.
  - apply length_map.
Qed.

End Loader.


(** ** Methods *)

Section MethodLemmas.
Context {S : Type}.
Implicit Types s : S.

Lemma bind_Ok_inv {A B} (m : M S A) (k : A -> M S B) s b s' :
  bind m k s = (Ok b, s') -> exists a s1, m s = (Ok a, s1) /\ k a s1 = (Ok b, s').
Proof.
  unfold bind. destruct (m s) as [[a|e] s1]; [eauto | discriminate].
Qed.

Lemma bind_Ok {A B} (m : M S A) (k : A -> M S B) s a s1 :
  m s = (Ok a, s1) -> bind m k s = k a s1.
Proof. intros Hm. unfold bind. rewrite Hm. reflexivity. Qed.

Lemma getattr_Ok_inv {A} (field : S -> attr A) s a s' :
  getattr field s = (Ok a, s') -> field s = Val a /\ s' = s.
Proof. unfold getattr. destruct (field s); intros [= <- <-]; auto. Qed.

Lemma lift_Ok_inv {A} (r : result A) s a s' :
  lift r s = (Ok a, s') -> r = Ok a /\ s' = s.
Proof. intros [= -> <-]. auto. Qed.

Lemma ret_Ok_inv {A} (x : A) s a s' :
  ret x s = (Ok a, s') -> a = x /\ s' = s.
Proof. intros [= -> <-]. auto. Qed.

Lemma setattr_Ok_inv (f : S -> S) s u s' :
  setattr f s = (Ok u, s') -> s' = f s.
Proof. intros [= _ <-]. reflexivity. Qed.

End MethodLemmas.

Lemma when_setattr_inv `{Externals} (b : bool) (f : Dataset -> Dataset) s u s' :
  when b (setattr f) s = (Ok u, s') -> s' = if b then f s else s.
Proof. destruct b; intros [= _ <-]; reflexivity. Qed.

(** Inversion of a method that returned: one fact per step. *)
Ltac inv_method :=
  repeat match goal with
  | H : bind _ _ _ = (Ok _, _) |- _ =>
      let a := fresh "a" in let s := fresh "s" in let E := fresh "E" in
      apply bind_Ok_inv in H as (a & s & E & H)
  | H : getattr _ _ = (Ok _, _) |- _ => apply getattr_Ok_inv in H as [H ->]
  | H : lift _ _ = (Ok _, _) |- _ => apply lift_Ok_inv in H as [H ->]
  | H : ret _ _ = (Ok _, _) |- _ => apply ret_Ok_inv in H as [-> ->]
  | H : setattr _ _ = (Ok _, _) |- _ => apply setattr_Ok_inv in H; subst
  | H : raise _ _ = (Ok _, _) |- _ => discriminate H
  | H : when ?b (setattr _) _ = (Ok _, _) |- _ => apply when_setattr_inv in H; subst
  | H : when ?b _ _ = (Ok _, _) |- _ => unfold when in H; destruct b eqn:?
  | H : (if ?b then _ else _) _ = (Ok _, _) |- _ => destruct b eqn:?
  end.

Ltac to_props :=
  repeat match goal with
  | H : negb _ = false |- _ => apply negb_false_iff in H
  | H : negb _ = true |- _ => apply negb_true_iff in H
  | H : bool_decide _ = true |- _ => apply bool_decide_eq_true in H
  | H : bool_decide _ = false |- _ => apply bool_decide_eq_false in H
  end.

(** ** The constructor *)

Section Constructor.
Context `{Externals}.

Lemma base_init_inv root subset mods s0 :
  BaseDataset__init__ root subset mods new_object = (Ok tt, s0) ->
  exists rootp table,
    Path_new (Some root) = Ok rootp /\ load_index rootp subset = Ok table /\
    subset ∈ valid_subsets /\
    forallb (fun m => bool_decide (m ∈ valid_modalities)) mods = true /\
    s0 = base_constructed rootp subset mods table.
Proof.
  intros Hi. unfold BaseDataset__init__, declare in Hi.
  inv_method. to_props.
  match goal with R : Path, T : DataFrame |- _ => exists R, T end.
  repeat (split; [assumption|]).
  unfold base_constructed, declared.
  repeat match goal with |- context [base_declares ?n] => destruct (base_declares n) end;
    reflexivity.
Qed.

(** A construction that returns leaves the object [constructed]. *)
Lemma init_inv root subset mods img sf sb mink self :
  __init__ root subset mods img sf sb mink new_object = (Ok tt, self) ->
  exists rootp table,
    Path_new (Some root) = Ok rootp /\ load_index rootp subset = Ok table /\
    subset ∈ valid_subsets /\
    forallb (fun m => bool_decide (m ∈ valid_modalities)) mods = true /\
    ("image" ∈ mods -> pathlike_bool img = true) /\
    self = constructed rootp subset mods img sf sb mink table.
Proof.
  intros Hi. unfold __init__ in Hi.
  apply bind_Ok_inv in Hi as ([] & s0 & Hb & Hi).
  apply base_init_inv in Hb as (rootp & table & Hr & Ht & Hs & Hm & ->).
  exists rootp, table. repeat (split; [assumption|]).
  apply bind_Ok_inv in Hi as (mods' & s1 & Hg & Hi).
  apply getattr_Ok_inv in Hg as [Hg ->]. cbn in Hg. injection Hg as <-.
  apply bind_Ok_inv in Hi as ([] & s2 & Hw & Hi).
  apply when_setattr_inv in Hw. subst s2.
  unfold configure in Hi.
  destruct (bool_decide ("cloud" ∈ mods)); inv_method.
  all: cbn in *.
  all: repeat match goal with H : Val _ = Val _ |- _ => injection H as <- end.
  all: to_props.
  all: (split; [tauto|]).
  all: unfold constructed, configured.
  all: repeat match goal with
         | H : _ ∈ _ |- _ => rewrite (bool_decide_eq_true_2 _ H); clear H
         | H : _ ∉ _ |- _ => rewrite (bool_decide_eq_false_2 _ H); clear H
         | H : pathlike_bool _ = _ |- _ => rewrite H; clear H
         | H : Path_new _ = _ |- _ => rewrite H; clear H
         | H : _ = "test" |- _ => rewrite (bool_decide_eq_true_2 _ H)
         | H : _ <> "test" |- _ => rewrite (bool_decide_eq_false_2 _ H)
         end.
  all: reflexivity.
Qed.

End Constructor.

(** ** The sample assembler *)

Section Assembler.
Context `{Externals}.

Lemma state_kept_ret {A} (a : A) : state_kept (ret a).
Proof. intros s. reflexivity. Qed.
Lemma state_kept_raise {A} e : state_kept (@raise Dataset A e).
Proof. intros s. reflexivity. Qed.
Lemma state_kept_lift {A} (r : result A) : state_kept (lift r).
Proof. intros s. reflexivity. Qed.
Lemma state_kept_getattr {A} (field : Dataset -> attr A) : state_kept (getattr field).
Proof. intros s. unfold getattr. destruct (field s); reflexivity. Qed.
Lemma state_kept_bind {A B} (m : M Dataset A) (k : A -> M Dataset B) :
  state_kept m -> (forall a, state_kept (k a)) -> state_kept (bind m k).
Proof.
  intros Hm Hk s. unfold bind. specialize (Hm s).
  destruct (m s) as [[a|e] s1]; cbn in Hm; subst s1; [apply Hk | reflexivity].
Qed.

Ltac frame :=
  repeat first
    [ apply state_kept_ret | apply state_kept_raise | apply state_kept_lift
    | apply state_kept_getattr
    | apply state_kept_bind; [|intros ?]
    | match goal with
      | |- state_kept (if ?b then _ else _) => destruct b
      | |- state_kept (match ?x with _ => _ end) => destruct x
      end ].

Lemma state_kept_image row td data : state_kept (getitem_image row td data).
Proof. unfold getitem_image. frame. Qed.
Lemma state_kept_cloud row td data : state_kept (getitem_cloud row td data).
Proof. unfold getitem_cloud. frame. Qed.
Lemma state_kept_mask field column key row td data :
  state_kept (getitem_mask field column key row td data).
Proof. unfold getitem_mask. frame. Qed.
Lemma state_kept_semantic row td data : state_kept (getitem_semantic row td data).
Proof. unfold getitem_semantic. frame; apply state_kept_mask. Qed.
Lemma state_kept_getitem idx : state_kept (__getitem__ idx).
Proof.
  unfold __getitem__. frame;
    first [apply state_kept_image | apply state_kept_cloud | apply state_kept_semantic].
Qed.

Lemma state_kept_Ok {A} (m : M Dataset A) s a s' :
  state_kept m -> m s = (Ok a, s') -> s' = s.
Proof. intros Hm Hr. specialize (Hm s). rewrite Hr in Hm. exact Hm. Qed.


(** What each block may add to the sample. *)
Lemma getitem_image_inv row td data s d s' :
  getitem_image row td data s = (Ok d, s') ->
  d = data \/ exists t, d = <["image" := VTensor t]> data.
Proof.
  unfold getitem_image. intros Hg. inv_method; eauto.
Qed.

Lemma getitem_cloud_inv row td data s d s' :
  getitem_cloud row td data s = (Ok d, s') ->
  exists mods, self_modalities s = Val mods /\
    if bool_decide ("cloud" ∈ mods) then
      exists sub, self_clouds_subdir s = Val sub /\
        match sub with
        | None => d = data
        | Some p =>
            exists ts pc,
              pd.getitem row "lidar_ts" = Ok ts /\
              _load_pc (joinpath (joinpath td p) (Path_of (cell_str ts +:+ ".bin")))
                = Ok pc /\
              d = <["cloud" := VCloud pc]> data
        end
    else d = data.
Proof.
  unfold getitem_cloud. intros Hg.
  apply bind_Ok_inv in Hg as (mods & s1 & Hm & Hg).
  apply getattr_Ok_inv in Hm as [Hm ->]. exists mods. split; [exact Hm|].
  destruct (bool_decide ("cloud" ∈ mods)); [|inv_method; reflexivity].
  apply bind_Ok_inv in Hg as (sub & s1 & Hs & Hg).
  apply getattr_Ok_inv in Hs as [Hs ->]. exists sub. split; [exact Hs|].
  destruct sub as [p|]; cbn [is_not_None] in Hg; [|inv_method; reflexivity].
  apply bind_Ok_inv in Hg as (sub' & s1 & Hs' & Hg).
  apply getattr_Ok_inv in Hs' as [Hs' ->].
  rewrite Hs in Hs'. injection Hs' as <-.
  apply bind_Ok_inv in Hg as (p' & s1 & Hp & Hg).
  apply lift_Ok_inv in Hp as [[= <-] ->].
  apply bind_Ok_inv in Hg as (ts & s1 & Hts & Hg).
  apply lift_Ok_inv in Hts as [Hts ->].
  apply bind_Ok_inv in Hg as (pc & s1 & Hpc & Hg).
  apply lift_Ok_inv in Hpc as [Hpc ->].
  apply ret_Ok_inv in Hg as [-> _]. eauto.
Qed.

Lemma getitem_mask_inv field column key row td data s d s' :
  getitem_mask field column key row td data s = (Ok d, s') ->
  exists sub, field s = Val sub /\
    match sub with
    | None => d = data
    | Some _ => exists t, d = <[key := VTensor t]> data
    end.
Proof.
  unfold getitem_mask. intros Hg.
  apply bind_Ok_inv in Hg as (sub & s1 & Hs & Hg).
  apply getattr_Ok_inv in Hs as [Hs ->]. exists sub. split; [exact Hs|].
  destruct sub as [p|]; cbn [path_bool] in Hg; inv_method; eauto.
Qed.

Lemma getitem_semantic_inv row td data s d s' :
  getitem_semantic row td data s = (Ok d, s') ->
  exists mods, self_modalities s = Val mods /\
    if bool_decide ("semantic" ∈ mods) then
      exists front back d1,
        self_semantic_front_subdir s = Val front /\
        self_semantic_back_subdir s = Val back /\
        match front with
        | None => d1 = data
        | Some _ => exists t, d1 = <["semantic_front" := VTensor t]> data
        end /\
        match back with
        | None => d = d1
        | Some _ => exists t, d = <["semantic_back" := VTensor t]> d1
        end
    else d = data.
Proof.
  unfold getitem_semantic. intros Hg.
  apply bind_Ok_inv in Hg as (mods & s1 & Hm & Hg).
  apply getattr_Ok_inv in Hm as [Hm ->]. exists mods. split; [exact Hm|].
  destruct (bool_decide ("semantic" ∈ mods)); [|inv_method; reflexivity].
  apply bind_Ok_inv in Hg as (front & s1 & Hf & Hg).
  apply getattr_Ok_inv in Hf as [Hf ->].
  apply bind_Ok_inv in Hg as (c & s1 & Hc & Hg).
  assert (s1 = s) as ->.
  { eapply state_kept_Ok; [|exact Hc]. frame. }
  destruct c.
  - apply bind_Ok_inv in Hg as (d1 & s2 & H1 & H2).
    pose proof (state_kept_Ok _ _ _ _ (state_kept_mask _ _ _ _ _ _) H1) as ->.
    apply getitem_mask_inv in H1 as (front' & Hf' & Hd1).
    apply getitem_mask_inv in H2 as (back & Hb & Hd).
    rewrite Hf in Hf'. injection Hf' as <-.
    exists front, back, d1. auto.
  - destruct front as [p|]; cbn [is_not_None] in Hc; [discriminate Hc|].
    apply bind_Ok_inv in Hc as (back & s2 & Hb & Hc).
    apply getattr_Ok_inv in Hb as [Hb ->].
    apply ret_Ok_inv in Hc as [Hc _].
    apply ret_Ok_inv in Hg as [-> _].
    destruct back; [discriminate|].
    exists None, None, data. auto.
Qed.

(** A sample that was returned went through every step of the assembler. *)
Lemma getitem_inv idx s d s' :
  __getitem__ idx s = (Ok d, s') ->
  exists df row cells utm root track d1 d2,
    self_dataset_df s = Val df /\ pd.iloc df idx = Ok row /\
    pd.getitems row ["northing"; "easting"] = Ok cells /\
    to_numpy_float32 cells = Ok utm /\
    self_dataset_root s = Val root /\ pd.getitem row "track" = Ok track /\
    let track_dir := joinpath root (Path_of (cell_str track)) in
    getitem_image row track_dir (<["utm" := VVector utm]> {[ "idx" := VInt idx ]}) s
      = (Ok d1, s) /\
    getitem_cloud row track_dir d1 s = (Ok d2, s) /\
    getitem_semantic row track_dir d2 s = (Ok d, s) /\
    s' = s.
Proof.
  unfold __getitem__. intros Hg.
  apply bind_Ok_inv in Hg as (df & s1 & Hdf & Hg).
  apply getattr_Ok_inv in Hdf as [Hdf ->].
  apply bind_Ok_inv in Hg as (row & s1 & Hrow & Hg).
  apply lift_Ok_inv in Hrow as [Hrow ->].
  apply bind_Ok_inv in Hg as (cells & s1 & Hcells & Hg).
  apply lift_Ok_inv in Hcells as [Hcells ->].
  apply bind_Ok_inv in Hg as (utm & s1 & Hutm & Hg).
  apply lift_Ok_inv in Hutm as [Hutm ->].
  apply bind_Ok_inv in Hg as (root & s1 & Hroot & Hg).
  apply getattr_Ok_inv in Hroot as [Hroot ->].
  apply bind_Ok_inv in Hg as (track & s1 & Htrack & Hg).
  apply lift_Ok_inv in Htrack as [Htrack ->].
  apply bind_Ok_inv in Hg as (d1 & s1 & H1 & Hg).
  pose proof (state_kept_Ok _ _ _ _ (state_kept_image _ _ _) H1) as ->.
  apply bind_Ok_inv in Hg as (d2 & s1 & H2 & Hg).
  pose proof (state_kept_Ok _ _ _ _ (state_kept_cloud _ _ _) H2) as ->.
  apply bind_Ok_inv in Hg as (d3 & s1 & H3 & Hg).
  pose proof (state_kept_Ok _ _ _ _ (state_kept_semantic _ _ _) H3) as ->.
  apply ret_Ok_inv in Hg as [-> ->].
  exists df, row, cells, utm, root, track, d1, d2. cbn zeta. auto 12.
Qed.

Lemma getitem_image_other row td data s d s' k :
  getitem_image row td data s = (Ok d, s') -> k <> "image" -> d !! k = data !! k.
Proof.
  intros Hg Hk. apply getitem_image_inv in Hg as [-> | [t ->]]; [reflexivity|].
  apply lookup_insert_ne. congruence.
Qed.

Lemma getitem_cloud_other row td data s d s' k :
  getitem_cloud row td data s = (Ok d, s') -> k <> "cloud" -> d !! k = data !! k.
Proof.
  intros Hg Hk. apply getitem_cloud_inv in Hg as (mods & _ & Hg).
  destruct (bool_decide ("cloud" ∈ mods)); [|subst; reflexivity].
  destruct Hg as ([p|] & _ & Hg); [|subst; reflexivity].
  destruct Hg as (ts & pc & _ & _ & ->). apply lookup_insert_ne. congruence.
Qed.

Lemma getitem_semantic_other row td data s d s' k :
  getitem_semantic row td data s = (Ok d, s') ->
  k <> "semantic_front" -> k <> "semantic_back" -> d !! k = data !! k.
Proof.
  intros Hg Hf Hb. apply getitem_semantic_inv in Hg as (mods & _ & Hg).
  destruct (bool_decide ("semantic" ∈ mods)); [|subst; reflexivity].
  destruct Hg as (front & back & d1 & _ & _ & H1 & H2).
  assert (d1 !! k = data !! k) as <-.
  { destruct front; [destruct H1 as [t ->]; apply lookup_insert_ne; congruence
                    | subst; reflexivity]. }
  destruct back; [destruct H2 as [t ->]; apply lookup_insert_ne; congruence
                 | subst; reflexivity].
Qed.

(** A key that no block writes is left as it was. *)
Lemma blocks_other row td data s d1 d2 d k :
  getitem_image row td data s = (Ok d1, s) ->
  getitem_cloud row td d1 s = (Ok d2, s) ->
  getitem_semantic row td d2 s = (Ok d, s) ->
  k <> "image" -> k <> "cloud" -> k <> "semantic_front" -> k <> "semantic_back" ->
  d !! k = data !! k.
Proof.
  intros H1 H2 H3 Ki Kc Kf Kb.
  rewrite (getitem_semantic_other _ _ _ _ _ _ k H3 Kf Kb).
  rewrite (getitem_cloud_other _ _ _ _ _ _ k H2 Kc).
  apply (getitem_image_other _ _ _ _ _ _ k H1 Ki).
Qed.

(** C6. The sample that [__getitem__] returns for an index holds that
    index under the key [idx]; this is so for every index a sample is
    returned for, the valid ones among them. *)
Theorem getitem_idx idx self d self' :
  __getitem__ idx self = (Ok d, self') -> d !! "idx" = Some (VInt idx).
Proof.
  intros Hg. apply getitem_inv in Hg
    as (df & row & cells & utm & root & track & d1 & d2 & _ & _ & _ & _ & _ & _ & Hg).
  cbn zeta in Hg. destruct Hg as (H1 & H2 & H3 & _).
  rewrite (blocks_other _ _ _ _ _ _ _ "idx" H1 H2 H3) by discriminate.
  rewrite lookup_insert_ne by discriminate. apply lookup_singleton_eq.
Qed.

Lemma getitems2_inv (row : gmap string cell) k1 k2 cells :
  pd.getitems row [k1; k2] = Ok cells ->
  exists c1 c2, row !! k1 = Some c1 /\ row !! k2 = Some c2 /\ cells = [c1; c2].
Proof.
  cbn. unfold pd.getitem.
  destruct (row !! k1) as [c1|]; [|discriminate].
  destruct (row !! k2) as [c2|]; [|discriminate].
  cbn. intros [= <-]. eauto.
Qed.

Lemma to_numpy2_inv c1 c2 utm :
  to_numpy_float32 [c1; c2] = Ok utm ->
  exists x y, astype_float32 c1 = Ok x /\ astype_float32 c2 = Ok y /\ utm = [x; y].
Proof.
  cbn. destruct (astype_float32 c1) as [x|]; [|discriminate].
  destruct (astype_float32 c2) as [y|]; [|discriminate].
  cbn. intros [= <-]. eauto.
Qed.

Lemma len_inv s n s' :
  __len__ s = (Ok n, s') ->
  exists df, self_dataset_df s = Val df /\ n = Z.of_nat (df_len df).
Proof.
  unfold __len__. intros Hl.
  apply bind_Ok_inv in Hl as (df & s1 & Hdf & Hl).
  apply getattr_Ok_inv in Hdf as [Hdf ->].
  apply ret_Ok_inv in Hl as [-> _]. eauto.
Qed.

(** A valid index takes, from each column, the cell at that position. *)
Lemma iloc_valid df idx row k :
  0 <= idx < Z.of_nat (df_len df) -> pd.iloc df idx = Ok row ->
  row !! k = df_columns df !! k ≫= (fun col => col !! Z.to_nat idx).
Proof.
  intros Hi. unfold pd.iloc.
  destruct (Z.ltb_spec idx (- Z.of_nat (df_len df))); [lia|].
  destruct (Z.leb_spec (Z.of_nat (df_len df)) idx); [lia|].
  destruct (Z.ltb_spec idx 0); [lia|].
  cbn. intros [= <-]. apply lookup_omap.
Qed.

(** C7. For a valid index the [utm] entry of the returned sample is a
    vector of two elements: the row's northing and easting, in that order,
    each as its conversion to [float32] gives it. *)
Theorem getitem_utm idx self df n d self' :
  self_dataset_df self = Val df ->
  __len__ self = (Ok n, self) ->
  0 <= idx < n ->
  __getitem__ idx self = (Ok d, self') ->
  exists northings eastings n e x y,
    df_columns df !! "northing" = Some northings /\
    northings !! Z.to_nat idx = Some n /\
    df_columns df !! "easting" = Some eastings /\
    eastings !! Z.to_nat idx = Some e /\
    astype_float32 n = Ok x /\ astype_float32 e = Ok y /\
    d !! "utm" = Some (VVector [x; y]).
Proof.
  intros Hdf Hn Hi Hg.
  apply len_inv in Hn as (df0 & Hdf0 & ->).
  rewrite Hdf in Hdf0. injection Hdf0 as <-.
  apply getitem_inv in Hg
    as (df' & row & cells & utm & root & track & d1 & d2 & Hdf' & Hrow & Hcells & Hutm
        & _ & _ & Hg).
  cbn zeta in Hg. destruct Hg as (H1 & H2 & H3 & _).
  rewrite Hdf in Hdf'. injection Hdf' as <-.
  apply getitems2_inv in Hcells as (n & e & Hn & He & ->).
  apply to_numpy2_inv in Hutm as (x & y & Hx & Hy & ->).
  rewrite (iloc_valid df idx row _ Hi Hrow) in Hn.
  rewrite (iloc_valid df idx row _ Hi Hrow) in He.
  destruct (df_columns df !! "northing") as [northings|]; [|discriminate].
  destruct (df_columns df !! "easting") as [eastings|]; [|discriminate].
  cbn in Hn, He.
  exists northings, eastings, n, e, x, y. repeat (split; [assumption || reflexivity|]).
  rewrite (blocks_other _ _ _ _ _ _ _ "utm" H1 H2 H3) by discriminate.
  apply lookup_insert_eq.
Qed.

End Assembler.

(** ** Construction and access together *)

Section Dataset.
Context `{Externals}.

Lemma pathlike_bool_Path_new (x : option (pathlike Path)) :
  pathlike_bool x = true -> exists p, Path_new x = Ok p.
Proof. destruct x as [[s|p]|]; cbn; intros Hx; try discriminate; eauto. Qed.

(** What [configure] does is the same whatever [clouds_subdir] held before. *)
Lemma configure_overwrites_clouds_subdir subset img sf sb mink c s :
  same_construction
    (configure subset img sf sb mink (set_clouds_subdir c s))
    (configure subset img sf sb mink s).
Proof.
  unfold same_construction.
  destruct s as [root sub mods df cl im fr ba mk it ct cst st].
  unfold configure, bind, getattr, when, setattr, lift, raise, ret. cbn.
  destruct mods as [|mods]; [split; [reflexivity | discriminate]|].
  destruct (bool_decide ("image" ∈ mods));
    [destruct (pathlike_bool img); [destruct (Path_new img)|]|];
    cbn; try (split; [reflexivity | discriminate]).
  all: destruct (bool_decide ("semantic" ∈ mods));
    [destruct (pathlike_bool sf); [destruct (Path_new sf)|];
     (destruct (pathlike_bool sb); [destruct (Path_new sb)|])|];
    cbn; try (split; [reflexivity | discriminate]).
  all: destruct sub as [|sub]; cbn; try (split; [reflexivity | discriminate]).
  all: destruct (bool_decide (sub = "test")); [destruct df|]; cbn;
    try (split; [reflexivity | discriminate]).
  all: split; reflexivity.
Qed.

Lemma bind_same_construction {A} (m : M Dataset A) (k1 k2 : A -> M Dataset unit) s :
  (forall a s', same_construction (k1 a s') (k2 a s')) ->
  same_construction (bind m k1 s) (bind m k2 s).
Proof.
  intros Hk. unfold bind. destruct (m s) as [[a|e] s']; [apply Hk|].
  split; [reflexivity | discriminate].
Qed.

(** The constructor with lines 50-51 taken out ends as the constructor does. *)
Lemma init_without_first_assignment root subset mods img sf sb mink s :
  same_construction
    (__init__ root subset mods img sf sb mink s)
    ((BaseDataset__init__ root subset mods ;;
      configure subset img sf sb mink)%method s).
Proof.
  unfold __init__. apply bind_same_construction. intros [] s0.
  unfold bind at 1. unfold getattr at 1.
  destruct (self_modalities s0) as [|mods0] eqn:Hm.
  - unfold configure, bind, getattr. rewrite Hm. split; [reflexivity | discriminate].
  - unfold bind at 1.
    destruct (bool_decide ("cloud" ∈ mods0)); cbn [when setattr ret].
    + apply configure_overwrites_clouds_subdir.
    + split; reflexivity.
Qed.

Lemma base_init_ok root subset mods rootp table :
  Path_new (Some root) = Ok rootp -> load_index rootp subset = Ok table ->
  subset ∈ valid_subsets ->
  forallb (fun m => bool_decide (m ∈ valid_modalities)) mods = true ->
  BaseDataset__init__ root subset mods new_object
  = (Ok tt, base_constructed rootp subset mods table).
Proof.
  intros Hr Ht Hs Hm. unfold BaseDataset__init__.
  rewrite (bind_Ok _ _ _ rootp new_object) by (unfold lift; rewrite Hr; reflexivity).
  erewrite bind_Ok by reflexivity.
  rewrite (bool_decide_eq_true_2 _ Hs). cbn [negb when].
  erewrite bind_Ok by reflexivity.
  erewrite bind_Ok by reflexivity.
  erewrite (bind_Ok (lift _)) by (unfold lift; rewrite Ht; reflexivity).
  erewrite bind_Ok by reflexivity.
  rewrite Hm. cbn [negb when].
  erewrite bind_Ok by reflexivity.
  erewrite bind_Ok by reflexivity.
  unfold declare, base_constructed, declared, bind, when, setattr, ret.
  destruct (base_declares "images_subdir"), (base_declares "clouds_subdir"),
    (base_declares "semantic_front_subdir"), (base_declares "semantic_back_subdir");
    reflexivity.
Qed.

Lemma configure_ok subset mods img sf sb mink rootp table :
  ("image" ∈ mods -> pathlike_bool img = true) ->
  configure subset img sf sb mink (base_constructed rootp subset mods table)
  = (Ok tt, constructed rootp subset mods img sf sb mink table).
Proof.
  intros Himg.
  unfold configure, base_constructed, constructed, configured,
    bind, getattr, when, setattr, lift, raise, ret. cbn.
  destruct (bool_decide ("image" ∈ mods)) eqn:Hi.
  - apply bool_decide_eq_true in Hi. rewrite (Himg Hi).
    destruct (pathlike_bool_Path_new img (Himg Hi)) as [p ->]. cbn.
    destruct (bool_decide ("semantic" ∈ mods)); cbn.
    + destruct (pathlike_bool sf) eqn:Hsf;
        [destruct (pathlike_bool_Path_new sf Hsf) as [pf ->]|];
        (destruct (pathlike_bool sb) eqn:Hsb;
           [destruct (pathlike_bool_Path_new sb Hsb) as [pb ->]|]);
        cbn; destruct (bool_decide (subset = "test")); reflexivity.
    + destruct (bool_decide (subset = "test")); reflexivity.
  - cbn.
    destruct (bool_decide ("semantic" ∈ mods)); cbn.
    + destruct (pathlike_bool sf) eqn:Hsf;
        [destruct (pathlike_bool_Path_new sf Hsf) as [pf ->]|];
        (destruct (pathlike_bool sb) eqn:Hsb;
           [destruct (pathlike_bool_Path_new sb Hsb) as [pb ->]|]);
        cbn; destruct (bool_decide (subset = "test")); reflexivity.
    + destruct (bool_decide (subset = "test")); reflexivity.
Qed.

(** A construction returns when the root is a path, the subset and the
    modalities are allowed ones, the Row Index loads, and the image
    modality comes with its subdirectory; it leaves the object
    [constructed]. *)
Lemma init_ok root subset mods img sf sb mink rootp table :
  Path_new (Some root) = Ok rootp -> load_index rootp subset = Ok table ->
  subset ∈ valid_subsets ->
  forallb (fun m => bool_decide (m ∈ valid_modalities)) mods = true ->
  ("image" ∈ mods -> pathlike_bool img = true) ->
  __init__ root subset mods img sf sb mink new_object
  = (Ok tt, constructed rootp subset mods img sf sb mink table).
Proof.
  intros Hr Ht Hs Hm Himg.
  pose proof (init_without_first_assignment root subset mods img sf sb mink new_object)
    as [Hfst Hsnd].
  rewrite (bind_Ok _ _ _ _ _ (base_init_ok _ _ _ _ _ Hr Ht Hs Hm)) in Hfst, Hsnd.
  rewrite (configure_ok _ _ _ _ _ _ _ _ Himg) in Hfst, Hsnd.
  cbn [fst snd] in Hfst, Hsnd. specialize (Hsnd eq_refl).
  destruct (__init__ root subset mods img sf sb mink new_object) as [r s].
  cbn [fst snd] in Hfst, Hsnd. congruence.
Qed.

(** C3. A constructed dataset has the subdirectory [lidar] for its point
    clouds, whatever was assigned before: a sample with the cloud modality
    enabled takes its cloud from root / track / lidar / <lidar timestamp>.bin,
    and the earlier assignment of [pcd] is dead: the constructor without it
    raises or returns alike and leaves the same object. *)
Theorem clouds_subdir_fixed root subset mods img sf sb mink self :
  __init__ root subset mods img sf sb mink new_object = (Ok tt, self) ->
  self_clouds_subdir self = Val (Some (Path_of "lidar")) /\
  (forall idx d self',
     "cloud" ∈ mods ->
     __getitem__ idx self = (Ok d, self') ->
     exists rootp df row track ts pc,
       self_dataset_root self = Val rootp /\
       self_dataset_df self = Val df /\ pd.iloc df idx = Ok row /\
       pd.getitem row "track" = Ok track /\ pd.getitem row "lidar_ts" = Ok ts /\
       _load_pc
         (joinpath
            (joinpath (joinpath rootp (Path_of (cell_str track))) (Path_of "lidar"))
            (Path_of (cell_str ts +:+ ".bin"))) = Ok pc /\
       d !! "cloud" = Some (VCloud pc)) /\
  (forall s,
     same_construction
       (__init__ root subset mods img sf sb mink s)
       ((BaseDataset__init__ root subset mods ;;
         configure subset img sf sb mink)%method s)).
Proof.
  intros Hi. apply init_inv in Hi as (rootp & table & _ & _ & _ & _ & _ & ->).
  split; [reflexivity|]. split; [|intros s; apply init_without_first_assignment].
  intros idx d self' Hc Hg.
  apply getitem_inv in Hg
    as (df & row & cells & utm & root' & track & d1 & d2 & Hdf & Hrow & _ & _
        & Hroot & Htrack & Hg).
  cbn zeta in Hg. destruct Hg as (_ & H2 & H3 & _).
  cbn in Hroot. injection Hroot as <-.
  apply getitem_cloud_inv in H2 as (mods' & Hm & H2).
  cbn in Hm. injection Hm as <-.
  rewrite (bool_decide_eq_true_2 _ Hc) in H2.
  destruct H2 as (sub & Hs & H2). cbn in Hs. injection Hs as <-.
  destruct H2 as (ts & pc & Hts & Hpc & ->).
  exists rootp, df, row, track, ts, pc.
  repeat (split; [assumption || reflexivity|]).
  rewrite (getitem_semantic_other _ _ _ _ _ _ "cloud" H3) by discriminate.
  apply lookup_insert_eq.
Qed.

(** C5. With the semantic modality enabled, the front subdirectory
    configured and the back subdirectory given as [None], every sample
    returned holds [semantic_front] and none holds [semantic_back]. *)
Theorem semantic_front_only root subset mods img sf mink self idx d self' :
  "semantic" ∈ mods ->
  pathlike_bool sf = true ->
  __init__ root subset mods img sf None mink new_object = (Ok tt, self) ->
  __getitem__ idx self = (Ok d, self') ->
  (exists t, d !! "semantic_front" = Some (VTensor t)) /\
  d !! "semantic_back" = None.
Proof.
  intros Hs Hsf Hi Hg.
  apply init_inv in Hi as (rootp & table & _ & _ & _ & _ & _ & ->).
  apply getitem_inv in Hg
    as (df & row & cells & utm & root' & track & d1 & d2 & _ & _ & _ & _ & _ & _ & Hg).
  cbn zeta in Hg. destruct Hg as (H1 & H2 & H3 & _).
  assert (Hd2 : d2 !! "semantic_back" = None /\ d2 !! "semantic_front" = None).
  { rewrite (getitem_cloud_other _ _ _ _ _ _ "semantic_back" H2) by discriminate.
    rewrite (getitem_image_other _ _ _ _ _ _ "semantic_back" H1) by discriminate.
    rewrite (getitem_cloud_other _ _ _ _ _ _ "semantic_front" H2) by discriminate.
    rewrite (getitem_image_other _ _ _ _ _ _ "semantic_front" H1) by discriminate.
    split; reflexivity. }
  apply getitem_semantic_inv in H3 as (mods' & Hm & H3).
  cbn in Hm. injection Hm as <-.
  rewrite (bool_decide_eq_true_2 _ Hs) in H3.
  destruct H3 as (front & back & d' & Hf & Hb & Hd' & Hd).
  cbn in Hf, Hb. unfold configured in Hf, Hb.
  rewrite (bool_decide_eq_true_2 _ Hs), Hsf in Hf.
  destruct (pathlike_bool_Path_new sf Hsf) as [p Hp]. rewrite Hp in Hf.
  cbn in Hf. injection Hf as <-.
  rewrite andb_false_r in Hb. unfold declared in Hb.
  destruct (base_declares "semantic_back_subdir"); [|discriminate].
  injection Hb as <-. subst d. destruct Hd' as [t ->].
  split.
  - exists t. apply lookup_insert_eq.
  - rewrite lookup_insert_ne by discriminate. apply Hd2.
Qed.

Lemma setitem_columns df key v k :
  df_columns (pd.setitem df key v) !! k
  = if decide (key = k) then Some (replicate (df_len df) v) else df_columns df !! k.
Proof. unfold pd.setitem. cbn. apply lookup_insert. Qed.

(** C2, as the code has it. The constructor writes to the Row Index for the
    test subset only, and there only the column [in_query]: it is set to
    true in every row, the number of rows and every other column are left
    as loaded; for another subset the table is left as loaded.
    [__getitem__] leaves the Row Index and every other attribute of the
    object as they were, whether it returns or raises. *)
Theorem row_index_writes root subset mods img sf sb mink self :
  __init__ root subset mods img sf sb mink new_object = (Ok tt, self) ->
  exists rootp table df,
    Path_new (Some root) = Ok rootp /\ load_index rootp subset = Ok table /\
    self_dataset_df self = Val df /\
    (subset <> "test" -> df = table) /\
    (subset = "test" ->
       df_len df = df_len table /\
       df_columns df !! "in_query" = Some (replicate (df_len table) (CBool true)) /\
       forall k, k <> "in_query" -> df_columns df !! k = df_columns table !! k) /\
    forall idx s, snd (__getitem__ idx s) = s.
Proof.
  intros Hi. apply init_inv in Hi as (rootp & table & Hr & Ht & _ & _ & _ & ->).
  exists rootp, table. eexists. split; [exact Hr|]. split; [exact Ht|].
  split; [reflexivity|]. split; [|split].
  - intros Hs. rewrite (bool_decide_eq_false_2 _ Hs). reflexivity.
  - intros Hs. rewrite (bool_decide_eq_true_2 _ Hs). split; [reflexivity|]. split.
    + rewrite setitem_columns. rewrite decide_True by reflexivity. reflexivity.
    + intros k Hk. rewrite setitem_columns. rewrite decide_False by congruence.
      reflexivity.
  - intros idx s. apply state_kept_getitem.
Qed.

Lemma bind_natural {A B C} (f : B -> C) (m : M Dataset A) (k : A -> M Dataset B)
    (k' : A -> M Dataset C) :
  (forall a s, k' a s = map_sample f (k a s)) ->
  forall s, bind m k' s = map_sample f (bind m k s).
Proof.
  intros Hk s. unfold bind. destruct (m s) as [[a|e] s1]; [apply Hk | reflexivity].
Qed.

Lemma bind_natural2 {A B} (f : A -> A) (g : B -> B) (m m' : M Dataset A)
    (k k' : A -> M Dataset B) s :
  m' s = map_sample f (m s) ->
  (forall a s, k' (f a) s = map_sample g (k a s)) ->
  bind m' k' s = map_sample g (bind m k s).
Proof.
  intros Hm Hk. unfold bind. rewrite Hm.
  destruct (m s) as [[a|e] s1]; cbn; [apply Hk | reflexivity].
Qed.

Lemma bind_natural_at {A B C} (f : B -> C) (m : M Dataset A) (k : A -> M Dataset B)
    (k' : A -> M Dataset C) s :
  (forall a s1, m s = (Ok a, s1) -> k' a s1 = map_sample f (k a s1)) ->
  bind m k' s = map_sample f (bind m k s).
Proof.
  intros Hk. unfold bind. destruct (m s) as [[a|e] s1]; [apply Hk | ]; reflexivity.
Qed.

Ltac natural :=
  repeat (intros; first
    [ apply bind_natural
    | match goal with |- (if ?b then _ else _) _ = _ => destruct b end
    | reflexivity
    | (unfold ret, map_sample; cbn; rewrite insert_insert_ne by congruence; reflexivity) ]).

Lemma getitem_image_natural row td data s k v :
  k <> "image" ->
  getitem_image row td (<[k:=v]> data) s
  = map_sample (insert k v) (getitem_image row td data s).
Proof. intros Hk. unfold getitem_image. revert s. natural. Qed.

Lemma getitem_cloud_natural row td data s k v :
  k <> "cloud" ->
  getitem_cloud row td (<[k:=v]> data) s
  = map_sample (insert k v) (getitem_cloud row td data s).
Proof. intros Hk. unfold getitem_cloud. revert s. natural. Qed.

Lemma getitem_mask_natural field column key row td data s k v :
  k <> key ->
  getitem_mask field column key row td (<[k:=v]> data) s
  = map_sample (insert k v) (getitem_mask field column key row td data s).
Proof. intros Hk. unfold getitem_mask. revert s. natural. Qed.

Lemma getitem_semantic_natural row td data s k v :
  k <> "semantic_front" -> k <> "semantic_back" ->
  getitem_semantic row td (<[k:=v]> data) s
  = map_sample (insert k v) (getitem_semantic row td data s).
Proof.
  intros Hf Hb. unfold getitem_semantic. revert s. natural.
  eapply bind_natural2; [apply getitem_mask_natural; exact Hf|].
  intros a' s'. apply getitem_mask_natural; exact Hb.
Qed.

Lemma iloc_negative df idx :
  - Z.of_nat (df_len df) <= idx < 0 ->
  pd.iloc df idx = pd.iloc df (idx + Z.of_nat (df_len df)).
Proof.
  intros Hi. unfold pd.iloc.
  destruct (Z.ltb_spec idx (- Z.of_nat (df_len df))); [lia|].
  destruct (Z.leb_spec (Z.of_nat (df_len df)) idx); [lia|].
  destruct (Z.ltb_spec (idx + Z.of_nat (df_len df)) (- Z.of_nat (df_len df))); [lia|].
  destruct (Z.leb_spec (Z.of_nat (df_len df)) (idx + Z.of_nat (df_len df))); [lia|].
  destruct (Z.ltb_spec idx 0); [|lia].
  destruct (Z.ltb_spec (idx + Z.of_nat (df_len df)) 0); [lia|].
  reflexivity.
Qed.

(** Two indices that take the same row give the same sample, up to the
    index it records. *)
Lemma getitem_same_row s df idx idx' :
  self_dataset_df s = Val df -> pd.iloc df idx = pd.iloc df idx' ->
  __getitem__ idx s = map_sample (insert "idx" (VInt idx)) (__getitem__ idx' s).
Proof.
  intros Hdf Hrow. unfold __getitem__.
  apply bind_natural_at. intros df' s1 Hg.
  apply getattr_Ok_inv in Hg as [Hg ->]. rewrite Hdf in Hg. injection Hg as <-.
  rewrite Hrow. clear Hdf. revert s. natural. intros track st.
  eapply (bind_natural2 (insert "idx" (VInt idx)) (insert "idx" (VInt idx))).
  { etransitivity; [|apply getitem_image_natural; discriminate].
    rewrite insert_insert_ne by discriminate. rewrite insert_singleton_eq.
    reflexivity. }
  intros d1 st1. eapply bind_natural2; [apply getitem_cloud_natural; discriminate|].
  intros d2 st2. eapply bind_natural2;
    [apply getitem_semantic_natural; discriminate|].
  reflexivity.
Qed.

(** C4, as the code has it. An index below [-len] or at least [len] makes
    [__getitem__] raise [IndexError], the object untouched; an index from
    [-len] up to [-1] is accepted, counts rows from the end, and gives the
    sample of row [len + idx] with the index as it was passed. *)
Theorem getitem_index_error self n idx :
  __len__ self = (Ok n, self) ->
  (idx < - n \/ n <= idx -> __getitem__ idx self = (Raise IndexError, self)) /\
  (- n <= idx < 0 ->
   __getitem__ idx self
   = map_sample (insert "idx" (VInt idx)) (__getitem__ (idx + n) self)).
Proof.
  intros Hn. apply len_inv in Hn as (df & Hdf & ->). split.
  - intros Hi. unfold __getitem__, bind, getattr, lift. rewrite Hdf.
    unfold pd.iloc.
    destruct (Z.ltb_spec idx (- Z.of_nat (df_len df))); [reflexivity|].
    destruct (Z.leb_spec (Z.of_nat (df_len df)) idx); [reflexivity | lia].
  - intros Hi. apply (getitem_same_row self df); [exact Hdf|].
    apply iloc_negative, Hi.
Qed.

End Dataset.

(** * Further properties *)

(** ** More on the loader *)

Lemma fromfile_length n : forall bs : list byte,
  (length bs < 4 * S n)%nat ->
  length (np.fromfile_float32 bs) = (length bs / 4)%nat.
Proof.
  induction n as [|n IH]; intros bs Hn.
  - destruct bs as [|b0 [|b1 [|b2 [|b3 r]]]]; cbn [length] in Hn; try lia; reflexivity.
  - destruct bs as [|b0 [|b1 [|b2 [|b3 r]]]]; try reflexivity.
    cbn [np.fromfile_float32 length]. cbn [length] in Hn.
    rewrite IH by lia.
    replace (S (S (S (S (length r))))) with (1 * 4 + length r)%nat by lia.
    rewrite Nat.div_add_l by lia. reflexivity.
Qed.

(** The items read from a file are as many as its bytes make whole items. *)
Lemma fromfile_count (bs : list byte) :
  length (np.fromfile_float32 bs) = (length bs / 4)%nat.
Proof. apply (fromfile_length (length bs)). lia. Qed.

Lemma fromfile_app n : forall bs extra : list byte,
  length bs = (4 * n)%nat ->
  np.fromfile_float32 (bs ++ extra)
  = np.fromfile_float32 bs ++ np.fromfile_float32 extra.
Proof.
  induction n as [|n IH]; intros bs extra Hn.
  - destruct bs; [reflexivity | discriminate].
  - destruct bs as [|b0 [|b1 [|b2 [|b3 r]]]]; cbn [length] in Hn; try lia.
    cbn [app np.fromfile_float32]. rewrite IH by lia. reflexivity.
Qed.

Lemma fromfile_short (extra : list byte) :
  (length extra < 4)%nat -> np.fromfile_float32 extra = [].
Proof.
  destruct extra as [|b0 [|b1 [|b2 [|b3 r]]]]; cbn [length]; intros Hl;
    try reflexivity; lia.
Qed.

Lemma filtered_points_alt a :
  filtered_points a = List.filter (forallb in_range) (map point_of (records a)).
Proof. unfold filtered_points. symmetry. apply filter_points. Qed.

Lemma filter_length_le {A} (f : A -> bool) (l : list A) :
  (length (List.filter f l) <= length l)%nat.
Proof.
  induction l as [|x l IH]; cbn [List.filter length]; [lia|].
  destruct (f x); cbn [length]; lia.
Qed.

Lemma filter_all {A} (f : A -> bool) (l : list A) :
  (forall x, In x l -> f x = true) -> List.filter f l = l.
Proof.
  induction l as [|x l IH]; intros Hall; [reflexivity|].
  cbn [List.filter]. rewrite (Hall x) by (left; reflexivity).
  rewrite IH; [reflexivity|]. intros y Hy. apply Hall. right. exact Hy.
Qed.

Lemma records_count (a : list Z) : length (records a) = (length a / 4)%nat.
Proof.
  induction a as [a IH] using (induction_ltof1 _ (@length Z)). unfold ltof in IH.
  destruct a as [|x [|y [|z [|i r]]]]; try reflexivity.
  cbn [records length]. rewrite (IH r) by (cbn; lia).
  replace (S (S (S (S (length r))))) with (1 * 4 + length r)%nat by lia.
  rewrite Nat.div_add_l by lia. reflexivity.
Qed.

Section LoaderFiles.
Context `{Externals}.

(** A readable file loads exactly when the whole [float32] items it holds
    come in fours; bytes left over after the last whole item do not count. *)
Theorem load_pc_returns_iff (path : Path) (bytes : list byte) :
  read_file path = Some bytes ->
  ((exists cloud, _load_pc path = Ok cloud) <-> (length bytes / 4 mod 4 = 0)%nat).
Proof.
  intros Hf. rewrite <- fromfile_count. split.
  - intros [cloud Hl]. apply load_pc_ok_inv in Hl as (bytes' & Hf' & Hm & _).
    rewrite Hf in Hf'. injection Hf' as <-. exact Hm.
  - intros Hm. eexists. apply (load_pc_filtered path bytes Hf Hm).
Qed.

(** Up to three bytes after the last record change nothing. *)
Theorem load_pc_trailing_bytes (path path' : Path) (bytes extra : list byte) :
  read_file path = Some bytes ->
  read_file path' = Some (bytes ++ extra) ->
  (length bytes mod 4 = 0)%nat -> (length extra < 4)%nat ->
  _load_pc path' = _load_pc path.
Proof.
  intros Hf Hf' Hm He. unfold _load_pc. rewrite Hf, Hf'.
  rewrite (fromfile_app (length bytes / 4)), (fromfile_short extra He), app_nil_r.
  - reflexivity.
  - pose proof (Nat.div_mod_eq (length bytes) 4). lia.
Qed.

(** The fourth value of a record plays no role: two files whose records
    agree on the first three values load alike. *)
Theorem load_pc_ignores_fourth (path path' : Path) (bytes bytes' : list byte) :
  read_file path = Some bytes -> read_file path' = Some bytes' ->
  (length (np.fromfile_float32 bytes) mod 4 = 0)%nat ->
  (length (np.fromfile_float32 bytes') mod 4 = 0)%nat ->
  map point_of (records (np.fromfile_float32 bytes))
  = map point_of (records (np.fromfile_float32 bytes')) ->
  _load_pc path' = _load_pc path.
Proof.
  intros Hf Hf' Hm Hm' Hp.
  rewrite (load_pc_filtered path bytes Hf Hm), (load_pc_filtered path' bytes' Hf' Hm').
  rewrite !filtered_points_alt, Hp. reflexivity.
Qed.

(** A cloud has at most one point per sixteen bytes of its file, and as
    many when every record passes the range test: then the cloud is the
    records, cut to three values. *)
Theorem load_pc_size (path : Path) (bytes : list byte) (cloud : list (list Z)) :
  read_file path = Some bytes -> _load_pc path = Ok cloud ->
  (length cloud <= length bytes / 16)%nat /\
  ((forall r, In r (records (np.fromfile_float32 bytes)) -> record_in_range r = true) ->
   cloud = map point_of (records (np.fromfile_float32 bytes)) /\
   length cloud = (length bytes / 16)%nat).
Proof.
  intros Hf Hl. apply load_pc_ok_inv in Hl as (bytes' & Hf' & Hm & ->).
  rewrite Hf in Hf'. injection Hf' as <-.
  assert (Hn : length (records (np.fromfile_float32 bytes)) = (length bytes / 16)%nat).
  { rewrite records_count, fromfile_count, Nat.Div0.div_div. reflexivity. }
  unfold filtered_points. split.
  - rewrite length_map, <- Hn. apply filter_length_le.
  - intros Hall. rewrite (filter_all _ _ Hall). split; [reflexivity|].
    rewrite length_map. exact Hn.
Qed.

End LoaderFiles.

(** ** The range test on the bits *)

(** The low 31 bits of a pattern: exponent field and fraction. *)
Lemma magnitude_fields w :
  Z.land w 0x7FFFFFFF = F32.biased_exp w * 8388608 + F32.fraction w.
Proof.
  unfold F32.biased_exp, F32.fraction.
  change 0x7FFFFFFF with (Z.ones 31). change 255 with (Z.ones 8).
  change 8388607 with (Z.ones 23).
  rewrite !Z.land_ones, Z.shiftr_div_pow2 by lia.
  change (2 ^ 31) with (2 ^ 23 * 2 ^ 8).
  rewrite Z.rem_mul_r by lia. change (2 ^ 23) with 8388608. lia.
Qed.

(** The two comparisons of the source, read on the bits: the pattern
    without its sign bit is at most the pattern of 100.0. *)
Lemma in_range_bits w :
  in_range w = true <-> Z.land w 0x7FFFFFFF <= 0x42C80000.
Proof.
  rewrite magnitude_fields. unfold in_range, F32.decode.
  pose proof (biased_exp_range w) as HE. pose proof (fraction_range w) as HM.
  change (F32.of_int (-100)) with (S754_finite true 13107200 (-17)).
  change (F32.of_int 100) with (S754_finite false 13107200 (-17)).
  destruct (Z.eqb_spec (F32.biased_exp w) 255) as [E255|E255].
  - rewrite E255.
    destruct (F32.fraction w =? 0); [destruct (F32.sign w)|]; cbn;
      (split; [discriminate | lia]).
  - destruct (Z.eqb_spec (F32.biased_exp w) 0) as [E0|E0].
    + rewrite E0. destruct (F32.fraction w) as [|m|m] eqn:EM; try lia.
      * cbn. split; [lia | reflexivity].
      * destruct (F32.sign w); cbn; (split; [lia | reflexivity]).
    + destruct (F32.fraction w + 8388608) as [|m|m] eqn:EM; try lia.
      unfold F32.leb, SFleb, SFcompare.
      assert (Hsw : forall c, Pos.switch_Eq Eq c = c) by (intros []; reflexivity).
      rewrite !Pos.compare_cont_spec, !Hsw.
      rewrite (Z.compare_antisym (F32.biased_exp w - 150) (-17)).
      rewrite (Pos.compare_antisym m 13107200), (Pos2Z.inj_compare m 13107200).
      destruct (Z.compare_spec (F32.biased_exp w - 150) (-17)) as [He|He|He];
        cbn [CompOpp].
      * destruct (Z.compare_spec (Z.pos m) (Z.pos 13107200)) as [Hm|Hm|Hm];
          destruct (F32.sign w); cbn; split; try discriminate; try reflexivity; lia.
      * destruct (F32.sign w); cbn; split; try discriminate; try reflexivity; lia.
      * destruct (F32.sign w); cbn; split; try discriminate; try reflexivity; lia.
Qed.

Section LoaderBits.
Context `{Externals}.

(** The range filter on the bits: a row of the file is in the cloud exactly
    when each of its three patterns, its sign bit cleared, is at most the
    pattern of 100.0 (0x42C80000); so the sign of a coordinate plays no
    role, and NaN and the infinities, whose patterns are larger, are out. *)
Theorem load_pc_bit_test (path : Path) (bytes : list byte) (cloud : list (list Z)) :
  read_file path = Some bytes -> _load_pc path = Ok cloud ->
  forall k x y z,
    np.fromfile_float32 bytes !! (4 * k)%nat = Some x ->
    np.fromfile_float32 bytes !! (4 * k + 1)%nat = Some y ->
    np.fromfile_float32 bytes !! (4 * k + 2)%nat = Some z ->
    (In [x; y; z] cloud <->
     Z.land x 0x7FFFFFFF <= 0x42C80000 /\ Z.land y 0x7FFFFFFF <= 0x42C80000 /\
     Z.land z 0x7FFFFFFF <= 0x42C80000).
Proof.
  intros Hf Hl k x y z Hx Hy Hz.
  apply load_pc_ok_inv in Hl as (bytes' & Hf' & Hm & ->).
  rewrite Hf in Hf'. injection Hf' as <-.
  rewrite <- !in_range_bits, !in_range_within, in_filtered_points. split.
  - intros (k' & x' & y' & z' & [= -> -> ->] & _ & _ & _ & _ & Wx & Wy & Wz). auto.
  - intros (Wx & Wy & Wz). exists k, x, y, z.
    repeat (split; [assumption || reflexivity|]). split; [|auto].
    apply lookup_lt_is_Some. apply lookup_lt_Some in Hz.
    pose proof (Nat.div_mod_eq (length (np.fromfile_float32 bytes)) 4). lia.
Qed.

End LoaderBits.

(** ** More on the sample assembler *)

Section AssemblerRuns.
Context `{Externals}.

(** *** The blocks, run forward *)

Lemma getitem_image_off row td data s mods :
  self_modalities s = Val mods -> "image" ∉ mods ->
  getitem_image row td data s = (Ok data, s).
Proof.
  intros Hm Hn. unfold getitem_image, bind, getattr. rewrite Hm.
  rewrite (bool_decide_eq_false_2 _ Hn). reflexivity.
Qed.

Lemma getitem_cloud_off row td data s mods :
  self_modalities s = Val mods -> "cloud" ∉ mods ->
  getitem_cloud row td data s = (Ok data, s).
Proof.
  intros Hm Hn. unfold getitem_cloud, bind, getattr. rewrite Hm.
  rewrite (bool_decide_eq_false_2 _ Hn). reflexivity.
Qed.

Lemma getitem_semantic_off row td data s mods :
  self_modalities s = Val mods -> "semantic" ∉ mods ->
  getitem_semantic row td data s = (Ok data, s).
Proof.
  intros Hm Hn. unfold getitem_semantic, bind, getattr. rewrite Hm.
  rewrite (bool_decide_eq_false_2 _ Hn). reflexivity.
Qed.

(** The image block with the modality enabled and its subdirectory set. *)
Lemma getitem_image_on row td data s mods p :
  self_modalities s = Val mods -> "image" ∈ mods ->
  self_images_subdir s = Val (Some p) ->
  getitem_image row td data s =
  match row !! (path_str p +:+ "_ts")%string with
  | None => (Raise KeyError, s)
  | Some ts =>
      match imread (path_str (joinpath (joinpath td p)
                                (Path_of (cell_str ts +:+ ".png")))) 1 with
      | None => (Raise CvError, s)
      | Some im =>
          match self_image_transform s with
          | Unset => (Raise AttributeError, s)
          | Val tr =>
              (Ok (<["image" := VTensor (call_image_transform tr (cvtColor_BGR2RGB im))]>
                     data), s)
          end
      end
  end.
Proof.
  intros Hm Hi Hs. unfold getitem_image, bind, getattr, lift, ret, pd.getitem.
  rewrite Hm, (bool_decide_eq_true_2 _ Hi). repeat (rewrite Hs; cbn).
  destruct (row !! (path_str p +:+ "_ts")%string) as [ts|]; [|reflexivity].
  destruct (imread _ 1) as [im|]; cbn; [|reflexivity].
  destruct (self_image_transform s); reflexivity.
Qed.

(** The cloud block with the modality enabled and its subdirectory set. *)
Lemma getitem_cloud_on row td data s mods p :
  self_modalities s = Val mods -> "cloud" ∈ mods ->
  self_clouds_subdir s = Val (Some p) ->
  getitem_cloud row td data s =
  match row !! "lidar_ts" with
  | None => (Raise KeyError, s)
  | Some ts =>
      match _load_pc (joinpath (joinpath td p) (Path_of (cell_str ts +:+ ".bin"))) with
      | Ok pc => (Ok (<["cloud" := VCloud pc]> data), s)
      | Raise e => (Raise e, s)
      end
  end.
Proof.
  intros Hm Hi Hs. unfold getitem_cloud, bind, getattr, lift, ret, pd.getitem.
  rewrite Hm, (bool_decide_eq_true_2 _ Hi). repeat (rewrite Hs; cbn).
  destruct (row !! "lidar_ts") as [ts|]; [|reflexivity].
  destruct (_load_pc _); reflexivity.
Qed.

(** What the first statements of [__getitem__] leave to the blocks. *)
Lemma getitem_start idx s df row n e x y root track :
  self_dataset_df s = Val df -> pd.iloc df idx = Ok row ->
  row !! "northing" = Some n -> row !! "easting" = Some e ->
  astype_float32 n = Ok x -> astype_float32 e = Ok y ->
  self_dataset_root s = Val root -> row !! "track" = Some track ->
  __getitem__ idx s =
  bind (getitem_image row (joinpath root (Path_of (cell_str track)))
          (<["utm" := VVector [x; y]]> {[ "idx" := VInt idx ]}))
    (fun d1 => bind (getitem_cloud row (joinpath root (Path_of (cell_str track))) d1)
    (fun d2 => bind (getitem_semantic row (joinpath root (Path_of (cell_str track))) d2)
    (fun d3 => ret d3))) s.
Proof.
  intros Hdf Hrow Hn He Hx Hy Hroot Htrack. unfold __getitem__.
  rewrite (bind_Ok _ _ s df s) by (unfold getattr; rewrite Hdf; reflexivity).
  rewrite (bind_Ok _ _ s row s) by (unfold lift; rewrite Hrow; reflexivity).
  rewrite (bind_Ok _ _ s [n; e] s)
    by (unfold lift; cbn; unfold pd.getitem; rewrite Hn, He; reflexivity).
  rewrite (bind_Ok _ _ s [x; y] s) by (unfold lift; cbn; rewrite Hx, Hy; reflexivity).
  rewrite (bind_Ok _ _ s root s) by (unfold getattr; rewrite Hroot; reflexivity).
  rewrite (bind_Ok _ _ s track s)
    by (unfold lift, pd.getitem; rewrite Htrack; reflexivity).
  reflexivity.
Qed.

(** With no modality enabled the sample is the index and the coordinates,
    and it is returned. *)
Theorem getitem_plain idx s df row n e x y root track mods :
  self_dataset_df s = Val df -> pd.iloc df idx = Ok row ->
  row !! "northing" = Some n -> row !! "easting" = Some e ->
  astype_float32 n = Ok x -> astype_float32 e = Ok y ->
  self_dataset_root s = Val root -> row !! "track" = Some track ->
  self_modalities s = Val mods ->
  "image" ∉ mods -> "cloud" ∉ mods -> "semantic" ∉ mods ->
  __getitem__ idx s
  = (Ok (<["utm" := VVector [x; y]]> {[ "idx" := VInt idx ]}), s).
Proof.
  intros Hdf Hrow Hn He Hx Hy Hroot Htrack Hm Hi Hc Hs.
  rewrite (getitem_start idx s df row n e x y root track) by assumption.
  rewrite (bind_Ok _ _ _ _ _ (getitem_image_off _ _ _ _ _ Hm Hi)).
  rewrite (bind_Ok _ _ _ _ _ (getitem_cloud_off _ _ _ _ _ Hm Hc)).
  rewrite (bind_Ok _ _ _ _ _ (getitem_semantic_off _ _ _ _ _ Hm Hs)).
  reflexivity.
Qed.

(** With only the cloud modality enabled the sample is the index, the
    coordinates and the cloud that [_load_pc] gives for the file of the
    row; when the loader raises, the access raises the same and no sample
    is returned. *)
Theorem getitem_cloud_only idx s df row n e x y root track mods p ts :
  self_dataset_df s = Val df -> pd.iloc df idx = Ok row ->
  row !! "northing" = Some n -> row !! "easting" = Some e ->
  astype_float32 n = Ok x -> astype_float32 e = Ok y ->
  self_dataset_root s = Val root -> row !! "track" = Some track ->
  self_modalities s = Val mods ->
  "image" ∉ mods -> "cloud" ∈ mods -> "semantic" ∉ mods ->
  self_clouds_subdir s = Val (Some p) -> row !! "lidar_ts" = Some ts ->
  __getitem__ idx s =
  match _load_pc (joinpath (joinpath (joinpath root (Path_of (cell_str track))) p)
                    (Path_of (cell_str ts +:+ ".bin"))) with
  | Ok pc =>
      (Ok (<["cloud" := VCloud pc]>
             (<["utm" := VVector [x; y]]> {[ "idx" := VInt idx ]})), s)
  | Raise err => (Raise err, s)
  end.
Proof.
  intros Hdf Hrow Hn He Hx Hy Hroot Htrack Hm Hi Hc Hs Hp Hts.
  rewrite (getitem_start idx s df row n e x y root track) by assumption.
  rewrite (bind_Ok _ _ _ _ _ (getitem_image_off _ _ _ _ _ Hm Hi)).
  unfold bind at 1. rewrite (getitem_cloud_on _ _ _ _ _ _ Hm Hc Hp), Hts.
  destruct (_load_pc _) as [pc|err]; [|reflexivity].
  rewrite (bind_Ok _ _ _ _ _ (getitem_semantic_off _ _ _ _ _ Hm Hs)).
  reflexivity.
Qed.

(** With the image modality enabled, a row without the timestamp column
    named after the images subdirectory makes the access raise [KeyError],
    and an image file that cannot be read makes it raise the codec's
    error; no sample without the image is returned. *)
Theorem getitem_image_errors idx s df row n e x y root track mods p :
  self_dataset_df s = Val df -> pd.iloc df idx = Ok row ->
  row !! "northing" = Some n -> row !! "easting" = Some e ->
  astype_float32 n = Ok x -> astype_float32 e = Ok y ->
  self_dataset_root s = Val root -> row !! "track" = Some track ->
  self_modalities s = Val mods -> "image" ∈ mods ->
  self_images_subdir s = Val (Some p) ->
  (row !! (path_str p +:+ "_ts")%string = None ->
   __getitem__ idx s = (Raise KeyError, s)) /\
  (forall ts,
     row !! (path_str p +:+ "_ts")%string = Some ts ->
     imread (path_str (joinpath (joinpath (joinpath root (Path_of (cell_str track))) p)
                         (Path_of (cell_str ts +:+ ".png")))) 1 = None ->
     __getitem__ idx s = (Raise CvError, s)).
Proof.
  intros Hdf Hrow Hn He Hx Hy Hroot Htrack Hm Hi Hp.
  rewrite (getitem_start idx s df row n e x y root track) by assumption.
  split.
  - intros Hts. unfold bind at 1.
    rewrite (getitem_image_on _ _ _ _ _ _ Hm Hi Hp), Hts. reflexivity.
  - intros ts Hts Him. unfold bind at 1.
    rewrite (getitem_image_on _ _ _ _ _ _ Hm Hi Hp), Hts, Him. reflexivity.
Qed.

Lemma iloc_in_range df idx :
  - Z.of_nat (df_len df) <= idx < Z.of_nat (df_len df) ->
  exists pos, pd.iloc df idx
              = Ok (omap (fun col : list cell => col !! pos) (df_columns df)).
Proof.
  intros Hi. unfold pd.iloc.
  destruct (Z.ltb_spec idx (- Z.of_nat (df_len df))); [lia|].
  destruct (Z.leb_spec (Z.of_nat (df_len df)) idx); [lia|].
  cbn. eauto.
Qed.

(** A Row Index without the column [northing] or without the column
    [easting] makes every access at an index that [iloc] accepts raise
    [KeyError]. *)
Theorem getitem_missing_coordinates idx s df :
  self_dataset_df s = Val df ->
  - Z.of_nat (df_len df) <= idx < Z.of_nat (df_len df) ->
  df_columns df !! "northing" = None \/ df_columns df !! "easting" = None ->
  __getitem__ idx s = (Raise KeyError, s).
Proof.
  intros Hdf Hi Hcol. destruct (iloc_in_range df idx Hi) as [pos Hrow].
  unfold __getitem__.
  rewrite (bind_Ok _ _ s df s) by (unfold getattr; rewrite Hdf; reflexivity).
  rewrite (bind_Ok _ _ s _ s) by (unfold lift; rewrite Hrow; reflexivity).
  unfold bind at 1. unfold lift at 1. cbn [pd.getitems]. unfold pd.getitem.
  rewrite !lookup_omap.
  destruct Hcol as [Hc|Hc].
  - rewrite Hc. reflexivity.
  - rewrite Hc. destruct (df_columns df !! "northing" ≫= _); reflexivity.
Qed.

Lemma getitem_mask_none field column key row td data s :
  field s = Val None ->
  getitem_mask field column key row td data s = (Ok data, s).
Proof.
  intros Hf. unfold getitem_mask, bind, getattr. rewrite Hf. reflexivity.
Qed.

(** One mask, its subdirectory set. *)
Lemma getitem_mask_on field column key row td data s p :
  field s = Val (Some p) ->
  getitem_mask field column key row td data s =
  match row !! column with
  | None => (Raise KeyError, s)
  | Some ts =>
      match imread (path_str (joinpath (joinpath td p)
                                (Path_of (cell_str ts +:+ ".png")))) 0 with
      | None => (Raise CvError, s)
      | Some im =>
          match self_semantic_transform s with
          | Unset => (Raise AttributeError, s)
          | Val tr =>
              (Ok (<[key := VTensor (tensor_float
                                       (call_semantic_transform tr (resize im (128, 128))))]>
                     data), s)
          end
      end
  end.
Proof.
  intros Hf. unfold getitem_mask, bind, getattr, lift, ret, pd.getitem.
  repeat (rewrite Hf; cbn).
  destruct (row !! column) as [ts|]; [|reflexivity].
  destruct (imread _ 0) as [im|]; cbn; [|reflexivity].
  destruct (self_semantic_transform s); reflexivity.
Qed.

(** The semantic block with the modality enabled and both attributes set
    (to a path or to [None]). *)
Lemma getitem_semantic_on row td data s mods front back :
  self_modalities s = Val mods -> "semantic" ∈ mods ->
  self_semantic_front_subdir s = Val front ->
  self_semantic_back_subdir s = Val back ->
  getitem_semantic row td data s =
  if is_not_None front || is_not_None back then
    bind (getitem_mask self_semantic_front_subdir "front_cam_ts" "semantic_front"
            row td data)
      (fun d1 => getitem_mask self_semantic_back_subdir "back_cam_ts" "semantic_back"
                   row td d1) s
  else (Ok data, s).
Proof.
  intros Hm Hi Hf Hb. unfold getitem_semantic.
  rewrite (bind_Ok _ _ s mods s) by (unfold getattr; rewrite Hm; reflexivity).
  rewrite (bool_decide_eq_true_2 _ Hi).
  rewrite (bind_Ok _ _ s front s) by (unfold getattr; rewrite Hf; reflexivity).
  destruct front as [p|]; cbn [is_not_None orb].
  - rewrite (bind_Ok _ _ s true s) by reflexivity. reflexivity.
  - rewrite (bind_Ok _ _ s (is_not_None back) s)
      by (unfold bind, getattr, ret; rewrite Hb; reflexivity).
    destruct back; reflexivity.
Qed.

(** A disabled modality leaves no key of its own in any sample. *)
Theorem getitem_disabled_absent idx s d s' mods :
  __getitem__ idx s = (Ok d, s') -> self_modalities s = Val mods ->
  ("image" ∉ mods -> d !! "image" = None) /\
  ("cloud" ∉ mods -> d !! "cloud" = None) /\
  ("semantic" ∉ mods -> d !! "semantic_front" = None /\ d !! "semantic_back" = None).
Proof.
  intros Hg Hm. apply getitem_inv in Hg
    as (df & row & cells & utm & root & track & d1 & d2 & _ & _ & _ & _ & _ & _ & Hg).
  cbn zeta in Hg. destruct Hg as (H1 & H2 & H3 & _).
  split; [|split].
  - intros Hi. rewrite (getitem_image_off _ _ _ _ _ Hm Hi) in H1. injection H1 as <-.
    rewrite (getitem_semantic_other _ _ _ _ _ _ "image" H3) by discriminate.
    rewrite (getitem_cloud_other _ _ _ _ _ _ "image" H2) by discriminate.
    reflexivity.
  - intros Hc. rewrite (getitem_cloud_off _ _ _ _ _ Hm Hc) in H2. injection H2 as <-.
    rewrite (getitem_semantic_other _ _ _ _ _ _ "cloud" H3) by discriminate.
    rewrite (getitem_image_other _ _ _ _ _ _ "cloud" H1) by discriminate.
    reflexivity.
  - intros Hs. rewrite (getitem_semantic_off _ _ _ _ _ Hm Hs) in H3. injection H3 as <-.
    rewrite (getitem_cloud_other _ _ _ _ _ _ "semantic_front" H2) by discriminate.
    rewrite (getitem_image_other _ _ _ _ _ _ "semantic_front" H1) by discriminate.
    rewrite (getitem_cloud_other _ _ _ _ _ _ "semantic_back" H2) by discriminate.
    rewrite (getitem_image_other _ _ _ _ _ _ "semantic_back" H1) by discriminate.
    split; reflexivity.
Qed.

(** A sample holds [idx] and [utm], and no key beyond these two and the
    four the modalities write. *)
Theorem getitem_keys idx s d s' :
  __getitem__ idx s = (Ok d, s') ->
  is_Some (d !! "idx") /\ is_Some (d !! "utm") /\
  forall k, is_Some (d !! k) ->
    k ∈ ["idx"; "utm"; "image"; "cloud"; "semantic_front"; "semantic_back"].
Proof.
  intros Hg. apply getitem_inv in Hg
    as (df & row & cells & utm & root & track & d1 & d2 & _ & _ & _ & _ & _ & _ & Hg).
  cbn zeta in Hg. destruct Hg as (H1 & H2 & H3 & _).
  split; [|split].
  - rewrite (blocks_other _ _ _ _ _ _ _ "idx" H1 H2 H3) by discriminate.
    rewrite lookup_insert_ne by discriminate. rewrite lookup_singleton_eq. eauto.
  - rewrite (blocks_other _ _ _ _ _ _ _ "utm" H1 H2 H3) by discriminate.
    rewrite lookup_insert_eq. eauto.
  - intros k Hk.
    destruct (decide (k = "image")) as [->|Ki]; [apply list_elem_of_In; cbn; auto 10|].
    destruct (decide (k = "cloud")) as [->|Kc]; [apply list_elem_of_In; cbn; auto 10|].
    destruct (decide (k = "semantic_front")) as [->|Kf]; [apply list_elem_of_In; cbn; auto 10|].
    destruct (decide (k = "semantic_back")) as [->|Kb]; [apply list_elem_of_In; cbn; auto 10|].
    rewrite (blocks_other _ _ _ _ _ _ _ k H1 H2 H3 Ki Kc Kf Kb) in Hk.
    destruct (decide (k = "utm")) as [->|Ku]; [apply list_elem_of_In; cbn; auto 10|].
    rewrite lookup_insert_ne in Hk by congruence.
    destruct (decide (k = "idx")) as [->|Kx]; [apply list_elem_of_In; cbn; auto 10|].
    rewrite lookup_singleton_ne in Hk by congruence. destruct Hk as [v Hv]. discriminate.
Qed.

(** With the image modality enabled and its subdirectory set, the image
    of a sample is read from track directory / subdirectory /
    <timestamp>.png, the timestamp taken from the column named after the
    subdirectory; it is read in color, its channels reordered, and passed
    through the image transform. *)
Theorem getitem_image_asset idx s d s' mods p :
  __getitem__ idx s = (Ok d, s') ->
  self_modalities s = Val mods -> "image" ∈ mods ->
  self_images_subdir s = Val (Some p) ->
  exists root df row track ts im tr,
    self_dataset_root s = Val root /\ self_dataset_df s = Val df /\
    pd.iloc df idx = Ok row /\ row !! "track" = Some track /\
    row !! (path_str p +:+ "_ts")%string = Some ts /\
    imread (path_str (joinpath (joinpath (joinpath root (Path_of (cell_str track))) p)
                        (Path_of (cell_str ts +:+ ".png")))) 1 = Some im /\
    self_image_transform s = Val tr /\
    d !! "image" = Some (VTensor (call_image_transform tr (cvtColor_BGR2RGB im))).
Proof.
  intros Hg Hm Hi Hp. apply getitem_inv in Hg
    as (df & row & cells & utm & root & track & d1 & d2 & Hdf & Hrow & _ & _ & Hroot
        & Htrack & Hg).
  cbn zeta in Hg. destruct Hg as (H1 & H2 & H3 & _).
  unfold pd.getitem in Htrack.
  destruct (row !! "track") as [track'|] eqn:Ht; [|discriminate].
  injection Htrack as ->.
  rewrite (getitem_semantic_other _ _ _ _ _ _ "image" H3) by discriminate.
  rewrite (getitem_cloud_other _ _ _ _ _ _ "image" H2) by discriminate.
  rewrite (getitem_image_on _ _ _ _ _ _ Hm Hi Hp) in H1.
  destruct (row !! (path_str p +:+ "_ts")%string) as [ts|] eqn:Hts; [|discriminate].
  destruct (imread _ 1) as [im|] eqn:Him; [|discriminate].
  destruct (self_image_transform s) as [|tr] eqn:Htr; [discriminate|].
  injection H1 as <-.
  exists root, df, row, track, ts, im, tr.
  repeat (split; [assumption || reflexivity|]).
  apply lookup_insert_eq.
Qed.

(** With the semantic modality enabled, a mask whose subdirectory is set
    is read from track directory / subdirectory / <timestamp>.png, the
    timestamp taken from the column [front_cam_ts] or [back_cam_ts]; it is
    read as one channel, resized to 128 x 128, passed through the semantic
    transform and cast to floating point. *)
Theorem getitem_mask_assets idx s d s' mods :
  __getitem__ idx s = (Ok d, s') ->
  self_modalities s = Val mods -> "semantic" ∈ mods ->
  exists root df row track tr,
    self_dataset_root s = Val root /\ self_dataset_df s = Val df /\
    pd.iloc df idx = Ok row /\ row !! "track" = Some track /\
    (forall p, self_semantic_front_subdir s = Val (Some p) ->
       exists ts im,
         row !! "front_cam_ts" = Some ts /\
         imread (path_str (joinpath (joinpath (joinpath root (Path_of (cell_str track))) p)
                             (Path_of (cell_str ts +:+ ".png")))) 0 = Some im /\
         self_semantic_transform s = Val tr /\
         d !! "semantic_front"
         = Some (VTensor (tensor_float (call_semantic_transform tr (resize im (128, 128)))))) /\
    (forall p, self_semantic_back_subdir s = Val (Some p) ->
       exists ts im,
         row !! "back_cam_ts" = Some ts /\
         imread (path_str (joinpath (joinpath (joinpath root (Path_of (cell_str track))) p)
                             (Path_of (cell_str ts +:+ ".png")))) 0 = Some im /\
         self_semantic_transform s = Val tr /\
         d !! "semantic_back"
         = Some (VTensor (tensor_float (call_semantic_transform tr (resize im (128, 128)))))).
Proof.
  intros Hg Hm Hi. apply getitem_inv in Hg
    as (df & row & cells & utm & root & track & d1 & d2 & Hdf & Hrow & _ & _ & Hroot
        & Htrack & Hg).
  cbn zeta in Hg. destruct Hg as (_ & _ & H3 & _).
  unfold pd.getitem in Htrack.
  destruct (row !! "track") as [track'|] eqn:Ht; [|discriminate].
  injection Htrack as ->.
  pose proof (getitem_semantic_inv _ _ _ _ _ _ H3) as (mods' & Hm' & Hinv).
  rewrite Hm in Hm'. injection Hm' as <-.
  rewrite (bool_decide_eq_true_2 _ Hi) in Hinv.
  destruct Hinv as (front & back & d' & Hf & Hb & _ & _).
  rewrite (getitem_semantic_on _ _ _ _ _ _ _ Hm Hi Hf Hb) in H3.
  destruct (self_semantic_transform s) as [|tr] eqn:Htr.
  - (* no transform: no mask can have been made *)
    exists root, df, row, track, {| st_train := false |}.
    repeat (split; [assumption || reflexivity|]).
    destruct front as [pf|]; cbn [is_not_None orb] in H3.
    + exfalso. unfold bind in H3.
      rewrite (getitem_mask_on _ _ _ _ _ _ _ _ Hf), Htr in H3.
      destruct (row !! "front_cam_ts"); [|discriminate].
      destruct (imread _ 0); discriminate.
    + destruct back as [pb|]; cbn [is_not_None orb] in H3.
      * exfalso. unfold bind in H3.
        rewrite (getitem_mask_none _ _ _ _ _ _ _ Hf) in H3.
        rewrite (getitem_mask_on _ _ _ _ _ _ _ _ Hb), Htr in H3.
        destruct (row !! "back_cam_ts"); [|discriminate].
        destruct (imread _ 0); discriminate.
      * split; intros p Hp; congruence.
  - exists root, df, row, track, tr.
    repeat (split; [assumption || reflexivity|]).
    destruct front as [pf|], back as [pb|]; cbn [is_not_None orb] in H3;
      unfold bind in H3;
      repeat first
        [ rewrite (getitem_mask_on _ _ _ _ _ _ _ _ Hf) in H3
        | rewrite (getitem_mask_on _ _ _ _ _ _ _ _ Hb) in H3
        | rewrite (getitem_mask_none _ _ _ _ _ _ _ Hf) in H3
        | rewrite (getitem_mask_none _ _ _ _ _ _ _ Hb) in H3
        | rewrite Htr in H3 ].
    + destruct (row !! "front_cam_ts") as [tf|] eqn:Htf; [|discriminate].
      destruct (imread _ 0) as [imf|] eqn:Hif; [|discriminate].
      rewrite (getitem_mask_on _ _ _ _ _ _ _ _ Hb), Htr in H3.
      destruct (row !! "back_cam_ts") as [tb|] eqn:Htb; [|discriminate].
      destruct (imread _ 0) as [imb|] eqn:Hib in H3; [|discriminate].
      injection H3 as <-. split; intros p Hp.
      * assert (p = pf) as -> by congruence. exists tf, imf.
        repeat (split; [assumption || reflexivity|]).
        rewrite lookup_insert_ne by discriminate. apply lookup_insert_eq.
      * assert (p = pb) as -> by congruence. exists tb, imb.
        repeat (split; [assumption || reflexivity|]). apply lookup_insert_eq.
    + destruct (row !! "front_cam_ts") as [tf|] eqn:Htf; [|discriminate].
      destruct (imread _ 0) as [imf|] eqn:Hif; [|discriminate].
      rewrite (getitem_mask_none _ _ _ _ _ _ _ Hb) in H3.
      injection H3 as <-. split; intros p Hp; [|congruence].
      assert (p = pf) as -> by congruence. exists tf, imf.
      repeat (split; [assumption || reflexivity|]). apply lookup_insert_eq.
    + destruct (row !! "back_cam_ts") as [tb|] eqn:Htb; [|discriminate].
      destruct (imread _ 0) as [imb|] eqn:Hib; [|discriminate].
      injection H3 as <-. split; intros p Hp; [congruence|].
      assert (p = pb) as -> by congruence. exists tb, imb.
      repeat (split; [assumption || reflexivity|]). apply lookup_insert_eq.
    + split; intros p Hp; congruence.
Qed.

End AssemblerRuns.

(** ** More on the constructor *)

Section ConstructorRuns.
Context `{Externals}.

Lemma configure_image_error subset mods img sf sb mink rootp table :
  "image" ∈ mods -> pathlike_bool img = false ->
  fst (configure subset img sf sb mink (base_constructed rootp subset mods table))
  = Raise ValueError.
Proof.
  intros Hi Himg.
  unfold configure, base_constructed, bind, getattr, when, raise. cbn.
  rewrite (bool_decide_eq_true_2 _ Hi), Himg. reflexivity.
Qed.

(** Once the base class has accepted the root, the subset and the
    modalities and has loaded the Row Index, the constructor returns when
    the image modality is disabled or comes with a subdirectory, and
    raises [ValueError] when the image modality is enabled and its
    subdirectory is [None] or empty; it raises in no other case. *)
Theorem init_returns_or_raises root subset mods img sf sb mink rootp table :
  Path_new (Some root) = Ok rootp -> load_index rootp subset = Ok table ->
  subset ∈ valid_subsets ->
  forallb (fun m => bool_decide (m ∈ valid_modalities)) mods = true ->
  (("image" ∈ mods -> pathlike_bool img = true) ->
   __init__ root subset mods img sf sb mink new_object
   = (Ok tt, constructed rootp subset mods img sf sb mink table)) /\
  ("image" ∈ mods -> pathlike_bool img = false ->
   fst (__init__ root subset mods img sf sb mink new_object) = Raise ValueError).
Proof.
  intros Hr Ht Hs Hm. split.
  - intros Himg. apply init_ok; assumption.
  - intros Hi Himg.
    destruct (init_without_first_assignment root subset mods img sf sb mink new_object)
      as [Hfst _].
    rewrite Hfst.
    rewrite (bind_Ok _ _ _ _ _ (base_init_ok _ _ _ _ _ Hr Ht Hs Hm)).
    apply configure_image_error; assumption.
Qed.

(** A constructed dataset holds the quantization size it was given and
    four transforms that are in training mode exactly for the subset
    [train]; the image transform resizes to 320 x 192. *)
Theorem init_transforms root subset mods img sf sb mink self :
  __init__ root subset mods img sf sb mink new_object = (Ok tt, self) ->
  exists train : bool,
    (train = true <-> subset = "train") /\
    self_image_transform self = Val {| it_train := train; it_resize := (320, 192) |} /\
    self_cloud_transform self = Val {| ct_train := train |} /\
    self_cloud_set_transform self = Val {| cst_train := train |} /\
    self_semantic_transform self = Val {| st_train := train |} /\
    self_mink_quantization_size self = Val mink.
Proof.
  intros Hi. apply init_inv in Hi as (rootp & table & _ & _ & _ & _ & _ & ->).
  exists (bool_decide (subset = "train")). split; [apply bool_decide_eq_true|].
  repeat split.
Qed.

Lemma configured_on arg name :
  pathlike_bool arg = true -> exists p, configured true arg name = Val (Some p).
Proof.
  intros Ha. unfold configured. rewrite Ha. cbn [andb].
  destruct (pathlike_bool_Path_new arg Ha) as [p ->]. eauto.
Qed.

Lemma configured_off enabled arg name sub :
  enabled && pathlike_bool arg = false ->
  configured enabled arg name = Val sub -> sub = None.
Proof.
  intros Ha. unfold configured, declared. rewrite Ha.
  destruct (base_declares name); [|discriminate]. congruence.
Qed.

(** In a sample of a constructed dataset the key of a modality is there
    exactly when the modality is enabled and, for a mask, its subdirectory
    was given: [image] and [cloud] with their modality, [semantic_front]
    and [semantic_back] with the semantic modality and a subdirectory
    argument that is a path or a non-empty string. *)
Theorem sample_keys_constructed root subset mods img sf sb mink self idx d self' :
  __init__ root subset mods img sf sb mink new_object = (Ok tt, self) ->
  __getitem__ idx self = (Ok d, self') ->
  (is_Some (d !! "image") <-> "image" ∈ mods) /\
  (is_Some (d !! "cloud") <-> "cloud" ∈ mods) /\
  (is_Some (d !! "semantic_front") <-> "semantic" ∈ mods /\ pathlike_bool sf = true) /\
  (is_Some (d !! "semantic_back") <-> "semantic" ∈ mods /\ pathlike_bool sb = true).
Proof.
  intros Hi Hg.
  apply init_inv in Hi as (rootp & table & _ & _ & _ & _ & Himg & ->).
  set (self := constructed rootp subset mods img sf sb mink table) in *.
  assert (Hm : self_modalities self = Val mods) by reflexivity.
  destruct (getitem_disabled_absent idx self d self' mods Hg Hm) as (Ai & Ac & As).
  apply getitem_inv in Hg
    as (df & row & cells & utm & root' & track & d1 & d2 & _ & _ & _ & _ & _ & _ & Hg).
  cbn zeta in Hg. destruct Hg as (H1 & H2 & H3 & _).
  split; [|split; [|split]].
  - split.
    + intros Hd. destruct (decide ("image" ∈ mods)) as [Hin|Hout]; [exact Hin|].
      rewrite (Ai Hout) in Hd. destruct Hd as [v Hv]. discriminate.
    + intros Hin. destruct (configured_on img "images_subdir" (Himg Hin)) as [p Hp].
      assert (Hs : self_images_subdir self = Val (Some p)).
      { cbn. rewrite (bool_decide_eq_true_2 _ Hin). exact Hp. }
      rewrite (getitem_semantic_other _ _ _ _ _ _ "image" H3) by discriminate.
      rewrite (getitem_cloud_other _ _ _ _ _ _ "image" H2) by discriminate.
      rewrite (getitem_image_on _ _ _ _ _ _ Hm Hin Hs) in H1.
      destruct (row !! _) as [ts|]; [|discriminate].
      destruct (imread _ 1) as [im|]; [|discriminate].
      destruct (self_image_transform self) as [|tr]; [discriminate|].
      injection H1 as <-. rewrite lookup_insert_eq. eauto.
  - split.
    + intros Hd. destruct (decide ("cloud" ∈ mods)) as [Hin|Hout]; [exact Hin|].
      rewrite (Ac Hout) in Hd. destruct Hd as [v Hv]. discriminate.
    + intros Hin.
      assert (Hs : self_clouds_subdir self = Val (Some (Path_of "lidar"))) by reflexivity.
      rewrite (getitem_semantic_other _ _ _ _ _ _ "cloud" H3) by discriminate.
      rewrite (getitem_cloud_on _ _ _ _ _ _ Hm Hin Hs) in H2.
      destruct (row !! "lidar_ts") as [ts|]; [|discriminate].
      destruct (_load_pc _) as [pc|]; [|discriminate].
      injection H2 as <-. rewrite lookup_insert_eq. eauto.
  - assert (Hd2 : d2 !! "semantic_front" = None).
    { rewrite (getitem_cloud_other _ _ _ _ _ _ "semantic_front" H2) by discriminate.
      rewrite (getitem_image_other _ _ _ _ _ _ "semantic_front" H1) by discriminate.
      reflexivity. }
    destruct (decide ("semantic" ∈ mods)) as [Hin|Hout].
    2:{ split; [|tauto]. intros Hd. rewrite (proj1 (As Hout)) in Hd.
        destruct Hd as [v Hv]. discriminate. }
    apply getitem_semantic_inv in H3 as (mods' & Hm' & H3).
    rewrite Hm in Hm'. injection Hm' as <-.
    rewrite (bool_decide_eq_true_2 _ Hin) in H3.
    destruct H3 as (front & back & d' & Hf & Hb & Hd' & Hd).
    cbn in Hf. rewrite (bool_decide_eq_true_2 _ Hin) in Hf.
    assert (Hdd : d !! "semantic_front" = d' !! "semantic_front").
    { destruct back; [destruct Hd as [t ->]; apply lookup_insert_ne; discriminate
                     | subst; reflexivity]. }
    rewrite Hdd. destruct (pathlike_bool sf) eqn:Hsf.
    + destruct (configured_on sf "semantic_front_subdir" Hsf) as [p Hp].
      rewrite Hp in Hf. injection Hf as <-. destruct Hd' as [t ->].
      rewrite lookup_insert_eq. split; eauto.
    + apply configured_off in Hf; [|rewrite Hsf; reflexivity]. subst front d'.
      rewrite Hd2. split; [intros [v Hv]; discriminate | intros [_ Hx]; discriminate].
  - assert (Hd2 : d2 !! "semantic_back" = None).
    { rewrite (getitem_cloud_other _ _ _ _ _ _ "semantic_back" H2) by discriminate.
      rewrite (getitem_image_other _ _ _ _ _ _ "semantic_back" H1) by discriminate.
      reflexivity. }
    destruct (decide ("semantic" ∈ mods)) as [Hin|Hout].
    2:{ split; [|tauto]. intros Hd. rewrite (proj2 (As Hout)) in Hd.
        destruct Hd as [v Hv]. discriminate. }
    apply getitem_semantic_inv in H3 as (mods' & Hm' & H3).
    rewrite Hm in Hm'. injection Hm' as <-.
    rewrite (bool_decide_eq_true_2 _ Hin) in H3.
    destruct H3 as (front & back & d' & Hf & Hb & Hd' & Hd).
    cbn in Hb. rewrite (bool_decide_eq_true_2 _ Hin) in Hb.
    assert (Hdd : d' !! "semantic_back" = None).
    { destruct front; [destruct Hd' as [t ->]; rewrite lookup_insert_ne by discriminate
                      | subst d']; exact Hd2. }
    destruct (pathlike_bool sb) eqn:Hsb.
    + destruct (configured_on sb "semantic_back_subdir" Hsb) as [p Hp].
      rewrite Hp in Hb. injection Hb as <-. destruct Hd as [t ->].
      rewrite lookup_insert_eq. split; eauto.
    + apply configured_off in Hb; [|rewrite Hsb; reflexivity]. subst back d.
      rewrite Hdd. split; [intros [v Hv]; discriminate | intros [_ Hx]; discriminate].
Qed.

End ConstructorRuns.

(** * The properties at work in the example world *)

Lemma load_pc_range_filter_example :
  _load_pc (H := Example.world) "/data/3/lidar/1000.bin"
    = Ok [[Example.one; Example.two; Example.three]] /\
  forall p, In p [[Example.one; Example.two; Example.three]] ->
    exists x y z, p = [x; y; z] /\ within x /\ within y /\ within z.
Proof.
  assert (Hl : _load_pc (H := Example.world) "/data/3/lidar/1000.bin"
               = Ok [[Example.one; Example.two; Example.three]])
    by (vm_compute; reflexivity).
  split; [exact Hl|].
  destruct (load_pc_range_filter (H := Example.world) _ _ Hl) as (bytes & _ & Hs & _).
  exact Hs.
Defined.

Lemma load_pc_empty_example :
  read_file (Externals := Example.world) "/data/3/lidar/1003.bin" = Some [] /\
  np.fromfile_float32 [] = [] /\
  _load_pc (H := Example.world) "/data/3/lidar/1003.bin" = Ok [].
Proof.
  assert (Hf : read_file (Externals := Example.world) "/data/3/lidar/1003.bin" = Some [])
    by (vm_compute; reflexivity).
  split; [exact Hf|]. split; [reflexivity|].
  apply (load_pc_empty (H := Example.world) _ [] Hf). reflexivity.
Defined.

Lemma load_pc_ragged_example :
  read_file (Externals := Example.world) "/data/3/lidar/1002.bin"
    = Some Example.cloud_1002 /\
  (length (np.fromfile_float32 Example.cloud_1002) mod 4 <> 0)%nat /\
  _load_pc (H := Example.world) "/data/3/lidar/1002.bin" = Raise ValueError.
Proof.
  assert (Hf : read_file (Externals := Example.world) "/data/3/lidar/1002.bin"
               = Some Example.cloud_1002) by (vm_compute; reflexivity).
  assert (Hm : (length (np.fromfile_float32 Example.cloud_1002) mod 4 <> 0)%nat)
    by (vm_compute; discriminate).
  split; [exact Hf|]. split; [exact Hm|].
  apply (load_pc_ragged (H := Example.world) _ _ Hf Hm).
Defined.

(** Twice the same point on the boundary, with a NaN row between: both
    copies are in the cloud, in place. *)
Lemma load_pc_subsequence_example :
  read_file (Externals := Example.world) "/data/3/lidar/1001.bin"
    = Some Example.cloud_1001 /\
  (length (np.fromfile_float32 Example.cloud_1001) mod 4 = 0)%nat /\
  _load_pc (H := Example.world) "/data/3/lidar/1001.bin"
    = Ok (map point_of
            (List.filter record_in_range
               (records (np.fromfile_float32 Example.cloud_1001)))).
Proof.
  assert (Hf : read_file (Externals := Example.world) "/data/3/lidar/1001.bin"
               = Some Example.cloud_1001) by (vm_compute; reflexivity).
  assert (Hm : (length (np.fromfile_float32 Example.cloud_1001) mod 4 = 0)%nat)
    by (vm_compute; reflexivity).
  split; [exact Hf|]. split; [exact Hm|].
  apply (load_pc_subsequence (H := Example.world) _ _ Hf Hm).
Defined.

#[local] Existing Instance Example.world.

(** A construction in the example world, through [init_ok]. *)
Ltac run_init :=
  apply (init_ok (H := Example.world));
  [ reflexivity | reflexivity | apply (bool_decide_eq_true_1 _); reflexivity
  | reflexivity | intros _; reflexivity ].

Lemma getitem_idx_example :
  __getitem__ 0 Example.dataset = (Ok Example.sample_0, Example.dataset) /\
  Example.sample_0 !! "idx" = Some (VInt 0).
Proof.
  assert (Hg : __getitem__ 0 Example.dataset = (Ok Example.sample_0, Example.dataset))
    by reflexivity.
  split; [exact Hg|].
  apply (getitem_idx (H := Example.world) _ _ _ _ Hg).
Defined.

Lemma getitem_utm_example :
  self_dataset_df Example.dataset = Val Example.table /\
  __len__ Example.dataset = (Ok 2, Example.dataset) /\
  0 <= 1 < 2 /\
  __getitem__ 1 Example.dataset = (Ok (Example.sample_1 1), Example.dataset) /\
  exists (northings eastings : list cell) n e x y,
    df_columns Example.table !! "northing" = Some northings /\
    northings !! Z.to_nat 1 = Some n /\
    df_columns Example.table !! "easting" = Some eastings /\
    eastings !! Z.to_nat 1 = Some e /\
    astype_float32 n = Ok x /\ astype_float32 e = Ok y /\
    Example.sample_1 1 !! "utm" = Some (VVector [x; y]).
Proof.
  assert (Hdf : self_dataset_df Example.dataset = Val Example.table)
    by reflexivity.
  assert (Hn : __len__ Example.dataset = (Ok 2, Example.dataset)) by reflexivity.
  assert (Hi : 0 <= 1 < 2) by lia.
  assert (Hg : __getitem__ 1 Example.dataset
               = (Ok (Example.sample_1 1), Example.dataset))
    by reflexivity.
  split; [exact Hdf|]. split; [exact Hn|]. split; [exact Hi|]. split; [exact Hg|].
  apply (getitem_utm (H := Example.world) _ _ _ _ _ _ Hdf Hn Hi Hg).
Defined.

Lemma clouds_subdir_fixed_example :
  __init__ (PStr "/data") "val" ["cloud"] Example.images Example.front None
    Example.mink new_object
    = (Ok tt, Example.dataset) /\
  self_clouds_subdir Example.dataset = Val (Some "lidar").
Proof.
  assert (Hi : __init__ (PStr "/data") "val" ["cloud"] Example.images
                 Example.front None Example.mink new_object = (Ok tt, Example.dataset))
    by run_init.
  split; [exact Hi|].
  apply (clouds_subdir_fixed (H := Example.world) _ _ _ _ _ _ _ _ Hi).
Defined.

Lemma semantic_front_only_example :
  "semantic" ∈ ["semantic"] /\
  pathlike_bool Example.front = true /\
  __init__ (PStr "/data") "val" ["semantic"] Example.images Example.front None
    Example.mink new_object
    = (Ok tt, Example.semantic_dataset) /\
  __getitem__ 0 Example.semantic_dataset
    = (Ok Example.semantic_sample_0, Example.semantic_dataset) /\
  (exists t, Example.semantic_sample_0 !! "semantic_front" = Some (VTensor t)) /\
  Example.semantic_sample_0 !! "semantic_back" = None.
Proof.
  assert (Hs : "semantic" ∈ ["semantic"]) by (apply list_elem_of_here).
  assert (Hf : pathlike_bool Example.front = true)
    by reflexivity.
  assert (Hi : __init__ (PStr "/data") "val" ["semantic"] Example.images
                 Example.front None Example.mink new_object = (Ok tt, Example.semantic_dataset))
    by run_init.
  assert (Hg : __getitem__ 0 Example.semantic_dataset
               = (Ok Example.semantic_sample_0, Example.semantic_dataset))
    by reflexivity.
  split; [exact Hs|]. split; [exact Hf|]. split; [exact Hi|]. split; [exact Hg|].
  apply (semantic_front_only (H := Example.world) _ _ _ _ _ _ _ _ _ _ Hs Hf Hi Hg).
Defined.

(** Constructed for the test subset, the table of the object is not the
    table that was loaded: it has gained the column [in_query]. *)
Lemma init_writes_row_index :
  load_index (Externals := Example.world) "/data" "test" = Ok Example.table /\
  __init__ (PStr "/data") "test" [] Example.images Example.front None
    Example.mink new_object
    = (Ok tt, Example.test_dataset) /\
  self_dataset_df Example.test_dataset <> Val Example.table.
Proof.
  split; [reflexivity|]. split; [run_init|].
  intros Heq.
  pose proof (f_equal (fun a : attr DataFrame =>
                match a with
                | Val df => df_columns df !! "in_query"
                | Unset => None
                end) Heq) as Hc.
  vm_compute in Hc. discriminate Hc.
Qed.

Lemma row_index_writes_example :
  __init__ (PStr "/data") "test" [] Example.images Example.front None
    Example.mink new_object
    = (Ok tt, Example.test_dataset) /\
  forall idx s, snd (__getitem__ (H := Example.world) idx s) = s.
Proof.
  assert (Hi : __init__ (PStr "/data") "test" [] Example.images
                 Example.front None Example.mink new_object = (Ok tt, Example.test_dataset))
    by run_init.
  split; [exact Hi|].
  destruct (row_index_writes (H := Example.world) _ _ _ _ _ _ _ _ Hi)
    as (rootp & table & df & _ & _ & _ & _ & _ & Hk).
  exact Hk.
Defined.

(** Index -1 is not in [0, 2), and a sample comes back: that of the last
    row. *)
Lemma getitem_negative_index_returns :
  __len__ Example.dataset = (Ok 2, Example.dataset) /\
  ~ (0 <= -1 < 2) /\
  __getitem__ (-1) Example.dataset = (Ok (Example.sample_1 (-1)), Example.dataset).
Proof.
  split; [reflexivity|]. split; [lia|]. reflexivity.
Qed.

Lemma getitem_index_error_example :
  __len__ Example.dataset = (Ok 2, Example.dataset) /\
  __getitem__ 2 Example.dataset = (Raise IndexError, Example.dataset) /\
  __getitem__ (-3) Example.dataset = (Raise IndexError, Example.dataset).
Proof.
  assert (Hn : __len__ Example.dataset = (Ok 2, Example.dataset)) by reflexivity.
  split; [exact Hn|].
  split.
  - apply (proj1 (getitem_index_error (H := Example.world) _ _ 2 Hn)). lia.
  - apply (proj1 (getitem_index_error (H := Example.world) _ _ (-3) Hn)). lia.
Defined.

(** * The further properties at work in the second world *)

#[local] Existing Instance Gallery.world.

Ltac run_gallery_init :=
  apply (init_ok (H := Gallery.world));
  [ reflexivity | reflexivity | apply (bool_decide_eq_true_1 _); reflexivity
  | reflexivity | intros _; reflexivity ].

(** Thirty-five bytes: two records and three bytes over. *)
Lemma load_pc_returns_iff_example :
  read_file (Externals := Gallery.world) "/data/3/lidar/1004.bin"
    = Some Gallery.cloud_1004 /\
  ((exists cloud, _load_pc (H := Gallery.world) "/data/3/lidar/1004.bin" = Ok cloud)
   <-> (length Gallery.cloud_1004 / 4 mod 4 = 0)%nat).
Proof.
  assert (Hf : read_file (Externals := Gallery.world) "/data/3/lidar/1004.bin"
               = Some Gallery.cloud_1004) by (vm_compute; reflexivity).
  split; [exact Hf|].
  apply (load_pc_returns_iff (H := Gallery.world) _ _ Hf).
Defined.

Lemma load_pc_trailing_bytes_example :
  read_file (Externals := Gallery.world) "/data/3/lidar/1000.bin"
    = Some Example.cloud_1000 /\
  read_file (Externals := Gallery.world) "/data/3/lidar/1004.bin"
    = Some (Example.cloud_1000 ++ ["001"; "002"; "003"]%byte) /\
  (length Example.cloud_1000 mod 4 = 0)%nat /\
  (length ["001"; "002"; "003"]%byte < 4)%nat /\
  _load_pc (H := Gallery.world) "/data/3/lidar/1004.bin"
  = _load_pc (H := Gallery.world) "/data/3/lidar/1000.bin".
Proof.
  assert (Hf : read_file (Externals := Gallery.world) "/data/3/lidar/1000.bin"
               = Some Example.cloud_1000) by (vm_compute; reflexivity).
  assert (Hf' : read_file (Externals := Gallery.world) "/data/3/lidar/1004.bin"
                = Some (Example.cloud_1000 ++ ["001"; "002"; "003"]%byte))
    by (vm_compute; reflexivity).
  assert (Hm : (length Example.cloud_1000 mod 4 = 0)%nat) by (vm_compute; reflexivity).
  assert (He : (length ["001"; "002"; "003"]%byte < 4)%nat) by (cbn; lia).
  split; [exact Hf|]. split; [exact Hf'|]. split; [exact Hm|]. split; [exact He|].
  apply (load_pc_trailing_bytes (H := Gallery.world) _ _ _ _ Hf Hf' Hm He).
Defined.

(** The fourth values 0 and 0 against 200 and NaN. *)
Lemma load_pc_ignores_fourth_example :
  read_file (Externals := Gallery.world) "/data/3/lidar/1000.bin"
    = Some Example.cloud_1000 /\
  read_file (Externals := Gallery.world) "/data/3/lidar/1005.bin"
    = Some Gallery.cloud_1005 /\
  _load_pc (H := Gallery.world) "/data/3/lidar/1005.bin"
  = _load_pc (H := Gallery.world) "/data/3/lidar/1000.bin".
Proof.
  assert (Hf : read_file (Externals := Gallery.world) "/data/3/lidar/1000.bin"
               = Some Example.cloud_1000) by (vm_compute; reflexivity).
  assert (Hf' : read_file (Externals := Gallery.world) "/data/3/lidar/1005.bin"
                = Some Gallery.cloud_1005) by (vm_compute; reflexivity).
  split; [exact Hf|]. split; [exact Hf'|].
  apply (load_pc_ignores_fourth (H := Gallery.world) _ _ _ _ Hf Hf');
    vm_compute; reflexivity.
Defined.

Lemma load_pc_size_example :
  read_file (Externals := Gallery.world) "/data/3/lidar/1000.bin"
    = Some Example.cloud_1000 /\
  _load_pc (H := Gallery.world) "/data/3/lidar/1000.bin"
    = Ok [[Example.one; Example.two; Example.three]] /\
  (length [[Example.one; Example.two; Example.three]]
   <= length Example.cloud_1000 / 16)%nat.
Proof.
  assert (Hf : read_file (Externals := Gallery.world) "/data/3/lidar/1000.bin"
               = Some Example.cloud_1000) by (vm_compute; reflexivity).
  assert (Hl : _load_pc (H := Gallery.world) "/data/3/lidar/1000.bin"
               = Ok [[Example.one; Example.two; Example.three]])
    by (vm_compute; reflexivity).
  split; [exact Hf|]. split; [exact Hl|].
  apply (proj1 (load_pc_size (H := Gallery.world) _ _ _ Hf Hl)).
Defined.

Lemma getitem_plain_example :
  __getitem__ 0 Gallery.plain = (Ok Gallery.plain_sample_0, Gallery.plain).
Proof.
  apply (getitem_plain (H := Gallery.world) 0 Gallery.plain Example.table Gallery.row_0
           (CFloat 0x4059200000000000) (CFloat 0x4069080000000000)
           0x42C90000 0x43484000 "/data" (CInt 3) []);
    try reflexivity.
  all: apply not_elem_of_nil.
Defined.

(** Row 0 has its cloud file; row 1 has none. *)
Lemma getitem_cloud_only_example :
  __getitem__ 0 Gallery.clouds = (Ok Gallery.cloud_sample_0, Gallery.clouds) /\
  __getitem__ 1 Gallery.clouds = (Raise FileNotFoundError, Gallery.clouds).
Proof.
  split.
  - apply (getitem_cloud_only (H := Gallery.world) 0 Gallery.clouds Example.table
             Gallery.row_0 (CFloat 0x4059200000000000) (CFloat 0x4069080000000000)
             0x42C90000 0x43484000 "/data" (CInt 3) ["cloud"] "lidar" (CInt 1000));
      try reflexivity.
    + intros Hx. apply list_elem_of_In in Hx. cbn in Hx. intuition discriminate.
    + apply list_elem_of_here.
    + intros Hx. apply list_elem_of_In in Hx. cbn in Hx. intuition discriminate.
  - apply (getitem_cloud_only (H := Gallery.world) 1 Gallery.clouds Example.table
             Gallery.row_1 (CFloat 0x4150000000800000) (CInt 21)
             0x4A800000 0x41A80000 "/data" (CInt 3) ["cloud"] "lidar" (CInt 1001));
      try reflexivity.
    + intros Hx. apply list_elem_of_In in Hx. cbn in Hx. intuition discriminate.
    + apply list_elem_of_here.
    + intros Hx. apply list_elem_of_In in Hx. cbn in Hx. intuition discriminate.
Defined.

(** Row 1 names an image that is not there. *)
Lemma getitem_image_errors_example :
  __getitem__ 1 Gallery.full = (Raise CvError, Gallery.full).
Proof.
  refine (proj2 (getitem_image_errors (H := Gallery.world) 1 Gallery.full Example.table
             Gallery.row_1 (CFloat 0x4150000000800000) (CInt 21)
             0x4A800000 0x41A80000 "/data" (CInt 3) ["image"; "cloud"; "semantic"]
             "front_cam" _ _ _ _ _ _ _ _ _ _ _) (CInt 2001) _ _);
    try reflexivity.
  apply list_elem_of_here.
Defined.

Lemma getitem_missing_coordinates_example :
  self_dataset_df Gallery.bare = Val Gallery.bare_table /\
  - Z.of_nat (df_len Gallery.bare_table) <= 0 < Z.of_nat (df_len Gallery.bare_table) /\
  __getitem__ 0 Gallery.bare = (Raise KeyError, Gallery.bare).
Proof.
  assert (Hdf : self_dataset_df Gallery.bare = Val Gallery.bare_table) by reflexivity.
  assert (Hi : - Z.of_nat (df_len Gallery.bare_table) <= 0
               < Z.of_nat (df_len Gallery.bare_table)) by (cbn; lia).
  split; [exact Hdf|]. split; [exact Hi|].
  apply (getitem_missing_coordinates (H := Gallery.world) _ _ _ Hdf Hi).
  left. reflexivity.
Defined.

Lemma getitem_disabled_absent_example :
  __getitem__ 0 Gallery.clouds = (Ok Gallery.cloud_sample_0, Gallery.clouds) /\
  Gallery.cloud_sample_0 !! "image" = None /\
  Gallery.cloud_sample_0 !! "semantic_front" = None /\
  Gallery.cloud_sample_0 !! "semantic_back" = None.
Proof.
  assert (Hg : __getitem__ 0 Gallery.clouds = (Ok Gallery.cloud_sample_0, Gallery.clouds))
    by reflexivity.
  assert (Hm : self_modalities Gallery.clouds = Val ["cloud"]) by reflexivity.
  split; [exact Hg|].
  destruct (getitem_disabled_absent (H := Gallery.world) _ _ _ _ _ Hg Hm)
    as (Hi & _ & Hs).
  split.
  - apply Hi. intros Hx. apply list_elem_of_In in Hx. cbn in Hx. intuition discriminate.
  - apply Hs. intros Hx. apply list_elem_of_In in Hx. cbn in Hx. intuition discriminate.
Defined.

Lemma getitem_keys_example :
  __getitem__ 0 Gallery.full = (Ok Gallery.full_sample_0, Gallery.full) /\
  is_Some (Gallery.full_sample_0 !! "idx") /\ is_Some (Gallery.full_sample_0 !! "utm").
Proof.
  assert (Hg : __getitem__ 0 Gallery.full = (Ok Gallery.full_sample_0, Gallery.full))
    by reflexivity.
  split; [exact Hg|].
  destruct (getitem_keys (H := Gallery.world) _ _ _ _ Hg) as (Hx & Hu & _).
  split; assumption.
Defined.

Lemma getitem_image_asset_example :
  __getitem__ 0 Gallery.full = (Ok Gallery.full_sample_0, Gallery.full) /\
  exists (root : string) df row track ts (im : list byte) tr,
    self_dataset_root Gallery.full = Val root /\ self_dataset_df Gallery.full = Val df /\
    pd.iloc df 0 = Ok row /\ row !! "track" = Some track /\
    row !! (path_str "front_cam" +:+ "_ts")%string = Some ts /\
    imread (path_str (joinpath (joinpath (joinpath root (Path_of (cell_str track)))
                                  "front_cam")
                        (Path_of (cell_str ts +:+ ".png")))) 1 = Some im /\
    self_image_transform Gallery.full = Val tr /\
    Gallery.full_sample_0 !! "image"
    = Some (VTensor (call_image_transform tr (cvtColor_BGR2RGB im))).
Proof.
  assert (Hg : __getitem__ 0 Gallery.full = (Ok Gallery.full_sample_0, Gallery.full))
    by reflexivity.
  split; [exact Hg|].
  apply (getitem_image_asset (H := Gallery.world) _ _ _ _
           ["image"; "cloud"; "semantic"] "front_cam" Hg); try reflexivity.
  apply list_elem_of_here.
Defined.

Lemma getitem_mask_assets_example :
  __getitem__ 0 Gallery.full = (Ok Gallery.full_sample_0, Gallery.full) /\
  exists (root : string) df row track tr,
    self_dataset_root Gallery.full = Val root /\ self_dataset_df Gallery.full = Val df /\
    pd.iloc df 0 = Ok row /\ row !! "track" = Some track /\
    self_semantic_transform Gallery.full = Val tr.
Proof.
  assert (Hg : __getitem__ 0 Gallery.full = (Ok Gallery.full_sample_0, Gallery.full))
    by reflexivity.
  assert (Hm : self_modalities Gallery.full = Val ["image"; "cloud"; "semantic"])
    by reflexivity.
  assert (Hs : "semantic" ∈ ["image"; "cloud"; "semantic"])
    by (apply list_elem_of_In; cbn; auto).
  split; [exact Hg|].
  destruct (getitem_mask_assets (H := Gallery.world) _ _ _ _ _ Hg Hm Hs)
    as (root & df & row & track & tr & Hroot & Hdf & Hrow & Htrack & Hfront & _).
  destruct (Hfront "labels/front_cam" eq_refl) as (ts & im & _ & _ & Htr & _).
  exists root, df, row, track, tr. auto.
Defined.

(** [val] with every modality needs the images subdirectory. *)
Lemma init_returns_or_raises_example :
  __init__ (PStr "/data") "val" ["image"; "cloud"; "semantic"] Gallery.images
    Gallery.front Gallery.back None new_object
  = (Ok tt, constructed "/data" "val" ["image"; "cloud"; "semantic"] Gallery.images
              Gallery.front Gallery.back None Example.table) /\
  fst (__init__ (PStr "/data") "val" ["image"; "cloud"; "semantic"] None
         Gallery.front Gallery.back None new_object) = Raise ValueError.
Proof.
  split.
  - eapply (proj1 (init_returns_or_raises (H := Gallery.world) (PStr "/data") "val"
                     ["image"; "cloud"; "semantic"] Gallery.images Gallery.front
                     Gallery.back None "/data" Example.table _ _ _ _)).
    intros _. reflexivity.
  - eapply (proj2 (init_returns_or_raises (H := Gallery.world) (PStr "/data") "val"
                     ["image"; "cloud"; "semantic"] None Gallery.front
                     Gallery.back None "/data" Example.table _ _ _ _)).
    + apply list_elem_of_here.
    + reflexivity.
  Unshelve.
  all: try reflexivity.
  all: apply (bool_decide_eq_true_1 _); reflexivity.
Defined.

Lemma init_transforms_example :
  __init__ (PStr "/data") "train" ["image"; "cloud"; "semantic"] Gallery.images
    Gallery.front Gallery.back Example.mink new_object = (Ok tt, Gallery.full) /\
  exists train : bool,
    (train = true <-> "train" = "train") /\
    self_image_transform Gallery.full
    = Val {| it_train := train; it_resize := (320, 192) |} /\
    self_cloud_transform Gallery.full = Val {| ct_train := train |} /\
    self_cloud_set_transform Gallery.full = Val {| cst_train := train |} /\
    self_semantic_transform Gallery.full = Val {| st_train := train |} /\
    self_mink_quantization_size Gallery.full = Val Example.mink.
Proof.
  assert (Hi : __init__ (PStr "/data") "train" ["image"; "cloud"; "semantic"]
                 Gallery.images Gallery.front Gallery.back Example.mink new_object
               = (Ok tt, Gallery.full)) by run_gallery_init.
  split; [exact Hi|].
  apply (init_transforms (H := Gallery.world) _ _ _ _ _ _ _ _ Hi).
Defined.

Lemma sample_keys_constructed_example :
  __init__ (PStr "/data") "train" ["image"; "cloud"; "semantic"] Gallery.images
    Gallery.front Gallery.back Example.mink new_object = (Ok tt, Gallery.full) /\
  __getitem__ 0 Gallery.full = (Ok Gallery.full_sample_0, Gallery.full) /\
  (is_Some (Gallery.full_sample_0 !! "semantic_back")
   <-> "semantic" ∈ ["image"; "cloud"; "semantic"] /\ pathlike_bool Gallery.back = true).
Proof.
  assert (Hi : __init__ (PStr "/data") "train" ["image"; "cloud"; "semantic"]
                 Gallery.images Gallery.front Gallery.back Example.mink new_object
               = (Ok tt, Gallery.full)) by run_gallery_init.
  assert (Hg : __getitem__ 0 Gallery.full = (Ok Gallery.full_sample_0, Gallery.full))
    by reflexivity.
  split; [exact Hi|]. split; [exact Hg|].
  apply (sample_keys_constructed (H := Gallery.world) _ _ _ _ _ _ _ _ _ _ _ Hi Hg).
Defined.

(** The second record of the file, (200, 0, 0, 0): 200.0 is 0x43480000, above
    0x42C80000, and the row is out. *)
Lemma load_pc_bit_test_example :
  read_file (Externals := Gallery.world) "/data/3/lidar/1000.bin"
    = Some Example.cloud_1000 /\
  _load_pc (H := Gallery.world) "/data/3/lidar/1000.bin"
    = Ok [[Example.one; Example.two; Example.three]] /\
  (In [Example.two_hundred; 0; 0] [[Example.one; Example.two; Example.three]] <->
   Z.land Example.two_hundred 0x7FFFFFFF <= 0x42C80000 /\
   Z.land 0 0x7FFFFFFF <= 0x42C80000 /\ Z.land 0 0x7FFFFFFF <= 0x42C80000).
Proof.
  assert (Hf : read_file (Externals := Gallery.world) "/data/3/lidar/1000.bin"
               = Some Example.cloud_1000) by (vm_compute; reflexivity).
  assert (Hl : _load_pc (H := Gallery.world) "/data/3/lidar/1000.bin"
               = Ok [[Example.one; Example.two; Example.three]])
    by (vm_compute; reflexivity).
  split; [exact Hf|]. split; [exact Hl|].
  apply (load_pc_bit_test (H := Gallery.world) _ _ _ Hf Hl 1%nat); reflexivity.
Defined.
